(** * Identity layer of the posting backend: users, session tokens, ownership

    A shallow embedding of the Koa controllers and of the Mongoose user
    model:

    - [UserModel]       the user schema and its methods (models/user)
    - [AuthCtrlEarlier] the auth controller variant without tokens
    - [AuthCtrl]        src/api/auth/auth.ctrl.js
    - [PostsCtrl]       src/api/posts/posts.ctrl.js

    Handlers are computations over a world made of the database and the
    Koa context of the request; they complete normally or throw.  The
    libraries the code calls (bcrypt, the token signature, Mongoose's
    casting) are an interface, [Libs]. *)

From stdpp Require Import base strings list option gmap pretty.
From Stdlib Require Import ZArith Lia.

(** ** JavaScript values and errors *)

(** A bson ObjectId; [toString] on it gives its hexadecimal form. *)
Record ObjectId := { toHexString : string }.

Global Instance ObjectId_eq_dec : EqDecision ObjectId.
Proof. solve_decision. Defined.

(** The values an [_id] takes in the code: the string a decoded token carries,
    or the ObjectId object of a stored document. *)
Inductive IdValue :=
| IdString (s : string)
| IdObject (oid : ObjectId).

(** [v.toString()] *)
Definition toString (v : IdValue) : string :=
  match v with
  | IdString s => s
  | IdObject oid => toHexString oid
  end.

(** [s !== v] with a string on the left: true unless [v] is the same string;
    a string is never strictly equal to an object. *)
Definition strict_neq (s : string) (v : IdValue) : bool :=
  match v with
  | IdString s' => negb (String.eqb s s')
  | IdObject _ => true
  end.

(** Values of the fields of a serialized document. *)
Inductive Value :=
| VString (s : string)
| VNumber (n : Z)
| VObjectId (oid : ObjectId).

Definition value_of_id (v : IdValue) : Value :=
  match v with
  | IdString s => VString s
  | IdObject oid => VObjectId oid
  end.

(** A JSON value, as the body parser leaves it in [ctx.request.body].
    Numbers are taken as integers: the handlers only test a number for zero
    and hand it to a library. *)
#[warnings="-register-all"] Inductive Json :=
| JNull
| JBool (b : bool)
| JNumber (n : Z)
| JString (s : string)
| JArray (items : list Json)
| JObject (members : list (string * Json)).

(** [!v]: [null], [false], [0] and the empty string are falsy. *)
Definition falsy (v : Json) : bool :=
  match v with
  | JNull => true
  | JBool b => negb b
  | JNumber n => (n =? 0)%Z
  | JString s => String.eqb s ""
  | JArray _ | JObject _ => false
  end.

Inductive Error :=
| ReferenceError (name : string)
| TypeError (msg : string)
| CastError (value : string)
| MongoError
| BcryptError
| JwtError (msg : string)
| HttpError (status : nat) (cause : Error).

(** How an evaluation ends: with a value, or with an error thrown. *)
Inductive Completion (A : Type) :=
| Normal (a : A)
| Throw (e : Error).
Arguments Normal {A} a.
Arguments Throw {A} e.

(** A [const] binding is uninitialized until its initializer has run. *)
Inductive Binding (A : Type) :=
| Uninitialized
| Initialized (a : A).
Arguments Uninitialized {A}.
Arguments Initialized {A} a.

(** ** Documents *)

Record User := {
  _id : ObjectId;
  username : string;
  hashedPassword : option string;
}.

(** The owner reference embedded in a post, [{ _id, username }]. *)
Record Owner := {
  owner_id : IdValue;
  owner_username : string;
}.

Record Post := {
  post_id : ObjectId;
  title : string;
  post_body : string;
  tags : list string;
  user : option Owner;
}.

(** Modelled from the spec: the resolved identity [{ id, username }] that the
    session resolver (not among the sources) leaves in [ctx.state.user]; its
    fields are those [generateToken] puts in the token. *)
Record Identity := {
  identity_id : IdValue;
  identity_username : string;
}.

(** ** Tokens *)

(** The claims of a token: what the code passes to [jwt.sign] and the two
    timestamps the library adds, in seconds. *)
Record JwtPayload := {
  jwt_id : string;
  jwt_username : string;
  iat : Z;
  exp : Z;
}.

Record Token := {
  payload : JwtPayload;
  signature : string;
}.

(** ** The libraries *)

Class Libs := {
  (** [bcrypt.hash(data, rounds)], with the salt it draws *)
  bcrypt_hash : string → nat → string → string;
  (** [bcrypt.compare(data, hash)] *)
  bcrypt_compare : string → string → bool;
  (** the HMAC signature of a token's claims under a secret *)
  hmac_sign : string → JwtPayload → string;
  (** Mongoose casting a string to an ObjectId; [None] is a cast error *)
  castObjectId : string → option ObjectId;
  (** the condition [{ username: v }] for a [v] that is not a string, as
      Mongoose casts it against the schema: the usernames it selects, or the
      error of the cast *)
  cast_condition : Json → Completion (string → bool);
}.

(** What a handler reads from the process while it serves a request:
    [process.env.JWT_SECRET], the clock in seconds ([Date.now() / 1000],
    rounded down), the salt bcrypt draws and the ObjectId of a new document. *)
Record Runtime := {
  JWT_SECRET : option string;
  now : Z;
  salt : string;
  new_id : ObjectId;
}.

(** ** Koa context and database *)

(** The body of an auth request: the values of its keys [username] and
    [password] ([None] when the key is absent) and the names of its other
    keys. *)
Record RequestBody := {
  body_username : option Json;
  body_password : option Json;
  body_others : list string;
}.

Record ValidationError := { error_path : string }.

Inductive ResponseBody :=
| JsonBody (o : gmap string Value)
| ErrorBody (e : ValidationError).

Record Cookie := {
  cookie_name : string;
  cookie_value : option Token;
  maxAge : option Z;
  httpOnly : bool;
}.

Record State := {
  state_user : option Identity;
  state_post : option Post;
}.

(** [status] is [None] until the handler assigns [ctx.status]. *)
Record Context := {
  request_body : RequestBody;
  params_id : string;
  state : State;
  status : option nat;
  body : option ResponseBody;
  cookies : list Cookie;
}.

(** The collections; [available] is false when the database cannot be
    reached, and every query then rejects. *)
Record Db := {
  available : bool;
  users : list User;
  posts : list Post;
}.

Record World := {
  db : Db;
  ctx : Context;
}.

(** ** Asynchronous computations *)

Definition Async (A : Type) : Type := World → Completion A * World.

Global Instance Async_ret : MRet Async := λ A a w, (Normal a, w).

Global Instance Async_bind : MBind Async := λ A B f m w,
  match m w with
  | (Normal a, w') => f a w'
  | (Throw e, w') => (Throw e, w')
  end.

(** A handler that does nothing, as the end of the middleware chain. *)
Definition skip : Async unit := mret tt.

Definition throw {A} (e : Error) : Async A := λ w, (Throw e, w).

Definition lift {A} (c : Completion A) : Async A := λ w, (c, w).

(** [try { m } catch (e) { h e }] *)
Definition try_catch {A} (m : Async A) (h : Error → Async A) : Async A := λ w,
  match m w with
  | (Throw e, w') => h e w'
  | r => r
  end.

(** Reading a [const]: a ReferenceError while it is uninitialized. *)
Definition read_binding {A} (name : string) (b : Binding A) : Async A :=
  match b with
  | Uninitialized => throw (ReferenceError name)
  | Initialized a => mret a
  end.

Definition get_ctx : Async Context := λ w, (Normal (ctx w), w).

Definition with_status (s : nat) (c : Context) : Context :=
  {| request_body := request_body c; params_id := params_id c; state := state c;
     status := Some s; body := body c; cookies := cookies c |}.

Definition with_body (b : ResponseBody) (c : Context) : Context :=
  {| request_body := request_body c; params_id := params_id c; state := state c;
     status := status c; body := Some b; cookies := cookies c |}.

Definition with_cookie (k : Cookie) (c : Context) : Context :=
  {| request_body := request_body c; params_id := params_id c; state := state c;
     status := status c; body := body c; cookies := cookies c ++ [k] |}.

Definition modify_ctx (f : Context → Context) : Async unit := λ w,
  (Normal tt, {| db := db w; ctx := f (ctx w) |}).

(** [ctx.status = s] *)
Definition set_status (s : nat) : Async unit := modify_ctx (with_status s).

(** [ctx.body = b] *)
Definition set_body (b : ResponseBody) : Async unit := modify_ctx (with_body b).

(** [ctx.cookies.set(name, value, options)] *)
Definition cookies_set (k : Cookie) : Async unit := modify_ctx (with_cookie k).

(** [ctx.throw(status, e)] *)
Definition ctx_throw {A} (s : nat) (e : Error) : Async A := throw (HttpError s e).

(** The status Koa answers with: the one an HTTP error carries, 500 for any
    other error, else the assigned status, else 200 with a body and 404
    without. *)
Definition status_of (r : Completion unit) (c : Context) : nat :=
  match r with
  | Throw (HttpError s _) => s
  | Throw _ => 500
  | Normal _ =>
      match status c with
      | Some s => s
      | None => match body c with Some _ => 200 | None => 404 end
      end
  end.

Definition response_status (r : Completion unit * World) : nat :=
  status_of (fst r) (ctx (snd r)).

(** A request as it reaches a handler. *)
Definition request (b : RequestBody) (id : string) (st : State) : Context :=
  {| request_body := b; params_id := id; state := st;
     status := None; body := None; cookies := [] |}.

(** The body [{ username, password }]. *)
Definition credentials (name password : string) : RequestBody :=
  {| body_username := Some (JString name); body_password := Some (JString password);
     body_others := [] |}.

(** The body [{}]. *)
Definition no_body : RequestBody :=
  {| body_username := None; body_password := None; body_others := [] |}.

Definition anonymous : State := {| state_user := None; state_post := None |}.

(** ** models/user *)

Module UserModel.
Section WithLibs.
Context `{Libs}.

(** [new User({ username })] *)
Definition new_User (rt : Runtime) (name : string) : User :=
  {| _id := new_id rt; username := name; hashedPassword := None |}.

(** [this.id], the string form of [_id] *)
Definition id (this : User) : string := toHexString (_id this).

(** The method assigns [this.hashedPassword]; the updated document is
    returned. *)
Definition setPassword (rt : Runtime) (this : User) (password : string) : Async User :=
  let hash := bcrypt_hash password 10 (salt rt) in
  mret {| _id := _id this; username := username this; hashedPassword := Some hash |}.

(** [bcrypt.compare] rejects data that is not a string, and a stored hash
    that is undefined. *)
Definition checkPassword (this : User) (password : Json) : Async bool :=
  match password, hashedPassword this with
  | JString data, Some hash => mret (bcrypt_compare data hash)
  | _, _ => throw BcryptError
  end.

Definition has_username (name : string) (u : User) : bool :=
  String.eqb (username u) name.

(** The documents the condition [{ username: v }] selects: for a string,
    those with that username. *)
Definition username_matches (v : Json) : Completion (User → bool) :=
  match v with
  | JString name => Normal (has_username name)
  | _ =>
      match cast_condition v with
      | Normal selects => Normal (λ u, selects (username u))
      | Throw e => Throw e
      end
  end.

(** [findOne({ username: v })] on a database: the condition is cast, then
    the first document it selects, if any, is the answer. *)
Definition findOne (v : Json) (d : Db) : Completion (option User) :=
  match username_matches v with
  | Throw e => Throw e
  | Normal condition =>
      if available d
      then Normal (find condition (users d))
      else Throw MongoError
  end.

(** [this.findOne({ username })] *)
Definition findByUsername (username : Json) : Async (option User) := λ w,
  (findOne username (db w), w).

(** [user.save()] of a new document: an insert. *)
Definition save (this : User) : Async unit := λ w,
  if available (db w)
  then (Normal tt,
        {| db := {| available := true; users := users (db w) ++ [this];
                    posts := posts (db w) |};
           ctx := ctx w |})
  else (Throw MongoError, w).

(** [this.toJSON()]: the fields that are set, with the version key. *)
Definition toJSON (this : User) : gmap string Value :=
  let data : gmap string Value :=
    {[ "_id" := VObjectId (_id this);
       "username" := VString (username this);
       "__v" := VNumber 0 ]} in
  match hashedPassword this with
  | Some hash => <["hashedPassword" := VString hash]> data
  | None => data
  end.

Definition serialize (this : User) : gmap string Value :=
  let data := toJSON this in
  delete "hashedPassword" data.

(** ['7d'] as the token library reads it, in seconds *)
Definition expiresIn : Z := 7 * 24 * 60 * 60.

(** [jwt.sign(data, secret, { expiresIn })]: it refuses a missing or empty
    secret, stamps the claims with the time of issue and the expiry, and
    signs them. *)
Definition jwt_sign (data : string * string) (secret : option string)
    (span : Z) (clock : Z) : Completion Token :=
  match secret with
  | None | Some "" => Throw (JwtError "secretOrPrivateKey must have a value")
  | Some key =>
      let claims := {| jwt_id := fst data; jwt_username := snd data;
                       iat := clock; exp := clock + span |} in
      Normal {| payload := claims; signature := hmac_sign key claims |}
  end.

Definition generateToken (rt : Runtime) (this : User) : Completion Token :=
  let token := jwt_sign (id this, username this) (JWT_SECRET rt) expiresIn (now rt) in
  token.
End WithLibs.
End UserModel.

(** ** Request validation *)

(** The Joi module, as imported. *)
Inductive JoiModule := Joi.

Definition is_alphanum (a : Ascii.ascii) : bool :=
  let n := Ascii.nat_of_ascii a in
  ((48 <=? n) && (n <=? 57)) || ((65 <=? n) && (n <=? 90)) || ((97 <=? n) && (n <=? 122)).

Definition alphanum (s : string) : bool := forallb is_alphanum (String.list_ascii_of_string s).

(** [joi.object().keys({ username: joi.string().alphanum().min(3).max(20).required(),
    password: joi.string().required() }).validate(body)]: the error, if any.
    The keys are checked in this order, each for a string that is not empty;
    a key the schema does not list is not allowed. *)
Definition register_schema (joi : JoiModule) (b : RequestBody) : option ValidationError :=
  match body_username b with
  | Some (JString name) =>
      if alphanum name && (3 <=? String.length name) && (String.length name <=? 20)
      then match body_password b with
           | Some (JString "") => Some {| error_path := "password" |}
           | Some (JString _) =>
               match body_others b with
               | [] => None
               | key :: _ => Some {| error_path := key |}
               end
           | _ => Some {| error_path := "password" |}
           end
      else Some {| error_path := "username" |}
  | _ => Some {| error_path := "username" |}
  end.

(** [maxAge: 1000 * 60 * 60 * 24 * 7], in milliseconds *)
Definition cookie_maxAge : Z := 1000 * 60 * 60 * 24 * 7.

Definition access_token (token : Token) : Cookie :=
  {| cookie_name := "access_token"; cookie_value := Some token;
     maxAge := Some cookie_maxAge; httpOnly := true |}.

(** ** The auth controller variant without tokens

    The second auth controller among the sources: it validates with [Joi],
    issues no token, and its [check] and [logout] do nothing. *)

Module AuthCtrlEarlier.
Section WithLibs.
Context `{Libs}.
Import UserModel.

Definition register (rt : Runtime) : Async unit :=
  let schema := register_schema Joi in
  c ← get_ctx;
  match schema (request_body c) with
  | Some error => set_status 400;; set_body (ErrorBody error)
  | None =>
      match body_username (request_body c), body_password (request_body c) with
      | Some (JString username), Some (JString password) =>
          try_catch
            (found ← findByUsername (JString username);
             match found with
             | Some _ => set_status 409
             | None =>
                 let user := new_User rt username in
                 user ← setPassword rt user password;
                 save user;;
                 set_body (JsonBody (serialize user))
             end)
            (λ e, ctx_throw 500 e)
      | _, _ => throw (TypeError "username or password is not a string")
      end
  end.

Definition login (rt : Runtime) : Async unit :=
  c ← get_ctx;
  match body_username (request_body c), body_password (request_body c) with
  | Some username, Some password =>
      if falsy username || falsy password
      then set_status 401
      else
        try_catch
          (found ← findByUsername username;
           match found with
           | None => set_status 401
           | Some user =>
               valid ← checkPassword user password;
               if negb valid
               then set_status 401
               else set_body (JsonBody (serialize user))
           end)
          (λ e, ctx_throw 500 e)
  | _, _ => set_status 401
  end.

Definition check : Async unit := mret tt.

Definition logout : Async unit := mret tt.
End WithLibs.
End AuthCtrlEarlier.

(** ** src/api/auth/auth.ctrl.js *)

Module AuthCtrl.
Section WithLibs.
Context `{Libs}.
Import UserModel.

(** The handler opens with [const schema = schema.object().keys(...)]: the
    initializer reads the binding it is initializing. *)
Definition register (rt : Runtime) : Async unit :=
  joi ← read_binding "schema" (@Uninitialized JoiModule);
  let schema := register_schema joi in
  c ← get_ctx;
  match schema (request_body c) with
  | Some error => set_status 400;; set_body (ErrorBody error)
  | None =>
      match body_username (request_body c), body_password (request_body c) with
      | Some (JString username), Some (JString password) =>
          try_catch
            (found ← findByUsername (JString username);
             match found with
             | Some _ => set_status 409
             | None =>
                 let user := new_User rt username in
                 user ← setPassword rt user password;
                 save user;;
                 set_body (JsonBody (serialize user));;
                 token ← lift (generateToken rt user);
                 cookies_set (access_token token)
             end)
            (λ e, ctx_throw 500 e)
      | _, _ => throw (TypeError "username or password is not a string")
      end
  end.

Definition login (rt : Runtime) : Async unit :=
  c ← get_ctx;
  match body_username (request_body c), body_password (request_body c) with
  | Some username, Some password =>
      if falsy username || falsy password
      then set_status 401
      else
        try_catch
          (found ← findByUsername username;
           match found with
           | None => set_status 401
           | Some user =>
               valid ← checkPassword user password;
               if negb valid
               then set_status 401
               else
                 set_body (JsonBody (serialize user));;
                 token ← lift (generateToken rt user);
                 cookies_set (access_token token)
           end)
          (λ e, ctx_throw 500 e)
  | _, _ => set_status 401
  end.

(** [ctx.body = user], the identity as an object *)
Definition identity_json (u : Identity) : gmap string Value :=
  {[ "_id" := value_of_id (identity_id u);
     "username" := VString (identity_username u) ]}.

Definition check : Async unit :=
  c ← get_ctx;
  match state_user (state c) with
  | None => set_status 401
  | Some u => set_body (JsonBody (identity_json u))
  end.

(** [ctx.cookies.set('access_token')] with no value clears the cookie; with
    no options it keeps the library's default, [httpOnly]. *)
Definition logout : Async unit :=
  cookies_set {| cookie_name := "access_token"; cookie_value := None;
                 maxAge := None; httpOnly := true |};;
  set_status 204.
End WithLibs.
End AuthCtrl.

(** ** src/api/posts/posts.ctrl.js *)

Module PostsCtrl.
Section WithLibs.
Context `{Libs}.

Definition has_id (oid : ObjectId) (p : Post) : bool :=
  bool_decide (post_id p = oid).

(** The collection without the first document that satisfies [f]. *)
Fixpoint remove_first (f : Post → bool) (l : list Post) : list Post :=
  match l with
  | [] => []
  | p :: l' => if f p then l' else p :: remove_first f l'
  end.

(** [Post.findByIdAndRemove(id).exec()]: the id is cast, then the document
    with that id, if there is one, is removed and returned. *)
Definition findByIdAndRemove (id : string) : Async (option Post) := λ w,
  match castObjectId id with
  | None => (Throw (CastError id), w)
  | Some oid =>
      if available (db w)
      then (Normal (find (has_id oid) (posts (db w))),
            {| db := {| available := true; users := users (db w);
                        posts := remove_first (has_id oid) (posts (db w)) |};
               ctx := ctx w |})
      else (Throw MongoError, w)
  end.

Definition remove : Async unit :=
  c ← get_ctx;
  let id := params_id c in
  try_catch
    (_ ← findByIdAndRemove id;
     set_status 204)
    (λ e, ctx_throw 500 e).

(** [post.user._id.toString() !== user._id]: the owner id is read and
    turned into a string first, then the identity's id is read. *)
Definition checkOwnPost (next : Async unit) : Async unit :=
  c ← get_ctx;
  let requester := state_user (state c) in
  let post := state_post (state c) in
  match post with
  | None => throw (TypeError "Cannot read properties of undefined (reading 'user')")
  | Some post =>
      match user post with
      | None => throw (TypeError "Cannot read properties of undefined (reading '_id')")
      | Some owner =>
          let owner_str := toString (owner_id owner) in
          match requester with
          | None => throw (TypeError "Cannot read properties of undefined (reading '_id')")
          | Some requester =>
              if strict_neq owner_str (identity_id requester)
              then set_status 403
              else next
          end
      end
  end.
End WithLibs.
End PostsCtrl.

(** ** Requests served at the same time

    The earlier [register] awaits the database twice: at [findByUsername]
    and at [save] (hashing in between touches nothing shared).  Another
    request may run between the two.  A client is a request in flight; a
    schedule names, step by step, the client that the event loop resumes. *)

Module Concurrent.
Section WithLibs.
Context `{Libs}.
Import UserModel.

Inductive Task :=
| Start
| Checked (username password : string)
| Settled (r : Completion unit).

Record Client := {
  client_rt : Runtime;
  client_ctx : Context;
  task : Task;
}.

(** [register] up to the answer of [findByUsername]. *)
Definition register_check : Async (option (string * string)) :=
  let schema := register_schema Joi in
  c ← get_ctx;
  match schema (request_body c) with
  | Some error => set_status 400;; set_body (ErrorBody error);; mret None
  | None =>
      match body_username (request_body c), body_password (request_body c) with
      | Some (JString username), Some (JString password) =>
          try_catch
            (found ← findByUsername (JString username);
             match found with
             | Some _ => set_status 409;; mret None
             | None => mret (Some (username, password))
             end)
            (λ e, ctx_throw 500 e)
      | _, _ => throw (TypeError "username or password is not a string")
      end
  end.

(** [register] from there on, when no user was found. *)
Definition register_insert (rt : Runtime) (username password : string) : Async unit :=
  try_catch
    (let user := new_User rt username in
     user ← setPassword rt user password;
     save user;;
     set_body (JsonBody (serialize user)))
    (λ e, ctx_throw 500 e).

Definition settle (c : Client) (r : Completion unit) (w : World) : Db * Client :=
  (db w, {| client_rt := client_rt c; client_ctx := ctx w; task := Settled r |}).

(** One resumption of a client against the shared database. *)
Definition step (d : Db) (c : Client) : Db * Client :=
  let w := {| db := d; ctx := client_ctx c |} in
  match task c with
  | Start =>
      match register_check w with
      | (Normal (Some (username, password)), w') =>
          (db w', {| client_rt := client_rt c; client_ctx := ctx w';
                     task := Checked username password |})
      | (Normal None, w') => settle c (Normal tt) w'
      | (Throw e, w') => settle c (Throw e) w'
      end
  | Checked username password =>
      let (r, w') := register_insert (client_rt c) username password w in
      settle c r w'
  | Settled _ => (d, c)
  end.

Record System := {
  shared : Db;
  clients : list Client;
}.

Definition resume (i : nat) (s : System) : System :=
  match clients s !! i with
  | None => s
  | Some c =>
      let (d, c') := step (shared s) c in
      {| shared := d; clients := <[i := c']> (clients s) |}
  end.

Definition run (schedule : list nat) (s : System) : System :=
  foldl (λ s i, resume i s) s schedule.

(** What a settled client answers. *)
Definition answer (c : Client) : option nat :=
  match task c with
  | Settled r => Some (status_of r (client_ctx c))
  | _ => None
  end.

(** Requests served one after the other, each to completion. *)
Fixpoint serve_all (d : Db) (requests : list (Runtime * Context)) : Db * list nat :=
  match requests with
  | [] => (d, [])
  | (rt, c) :: rest =>
      let r := AuthCtrlEarlier.register rt {| db := d; ctx := c |} in
      let (d', answers) := serve_all (db (snd r)) rest in
      (d', response_status r :: answers)
  end.
End WithLibs.
End Concurrent.

(** ** Token verification *)

Module TokenCodec.
Section WithLibs.
Context `{Libs}.

Inductive Verdict :=
| Claims (claims : JwtPayload)
| InvalidToken
| Expired.

(** Modelled from the spec: [verify(token, secret)], which the session
    resolver calls and which is not among the sources -- a signature that
    does not match yields [InvalidToken]; a correctly signed token past its
    [expiresAt] yields [Expired]; otherwise the claims. *)
Definition verify (token : Token) (secret : string) (clock : Z) : Verdict :=
  if negb (String.eqb (signature token) (hmac_sign secret (payload token)))
  then InvalidToken
  else if (exp (payload token) <? clock)%Z
  then Expired
  else Claims (payload token).
End WithLibs.
End TokenCodec.

(** ** What the caller observes *)

(** Status, body and cookies of the answer; Koa drops body and cookies when
    the handler threw. *)
Definition response (r : Completion unit * World)
    : nat * option ResponseBody * list Cookie :=
  match r with
  | (Normal _, w) => (response_status r, body (ctx w), cookies (ctx w))
  | (Throw _, _) => (response_status r, None, [])
  end.

(** The spec's comparison of ids: both sides as strings. *)
Definition canonically_equal (a b : IdValue) : Prop := toString a = toString b.

(** The object a handler left as the body of the answer, if it did. *)
Definition returned (r : Completion unit * World) : option (gmap string Value) :=
  match body (ctx (snd r)) with
  | Some (JsonBody o) => Some o
  | _ => None
  end.

(** A field of the request that is absent or falsy ([!field] in the code). *)
Definition missing (field : option Json) : Prop :=
  field = None ∨ ∃ v, field = Some v ∧ falsy v = true.

(** The claim's failed credentials: a missing username or password, a
    username the lookup finds nobody for, or a password that [bcrypt.compare]
    finds not to match the stored hash. *)
Definition credentials_fail `{Libs} (d : Db) (b : RequestBody) : Prop :=
  missing (body_username b) ∨ missing (body_password b) ∨
  ∃ username,
    body_username b = Some username ∧
    (UserModel.findOne username d = Normal None ∨
     ∃ u hash password,
       UserModel.findOne username d = Normal (Some u) ∧
       hashedPassword u = Some hash ∧
       body_password b = Some (JString password) ∧
       bcrypt_compare password hash = false).

(** The credentials [login] accepts: a username the lookup finds a user for
    and a password, a string, that [bcrypt.compare] finds to match the hash
    stored for that user. *)
Definition credentials_verify `{Libs} (d : Db) (b : RequestBody) (u : User) : Prop :=
  ∃ username hash password,
    body_username b = Some username ∧ falsy username = false ∧
    UserModel.findOne username d = Normal (Some u) ∧
    hashedPassword u = Some hash ∧
    body_password b = Some (JString password) ∧ password ≠ "" ∧
    bcrypt_compare password hash = true.

(** The signing secret is set: [process.env.JWT_SECRET] is a string that is
    not empty. *)
Definition secret_set (rt : Runtime) : Prop :=
  ∃ key, JWT_SECRET rt = Some key ∧ key ≠ "".

(** The document [register] stores: [new User({ username })] after
    [setPassword]. *)
Definition registered `{Libs} (rt : Runtime) (name password : string) : User :=
  {| _id := new_id rt; username := name;
     hashedPassword := Some (bcrypt_hash password 10 (salt rt)) |}.

Definition insert_user (u : User) (d : Db) : Db :=
  {| available := true; users := users d ++ [u]; posts := posts d |}.

(** A body [register] accepts: a username, a string of 3 to 20 alphanumeric
    characters, a password, a string that is not empty, and no other key. *)
Definition acceptable_registration (b : RequestBody) : Prop :=
  ∃ name password,
    body_username b = Some (JString name) ∧
    body_password b = Some (JString password) ∧
    alphanum name = true ∧ 3 ≤ String.length name ≤ 20 ∧ password ≠ "" ∧
    body_others b = [].

(** A request that passes the schema of [register] with the given username
    and has no status assigned yet. *)
Definition registers (name : string) (rc : Runtime * Context) : Prop :=
  register_schema Joi (request_body rc.2) = None ∧
  body_username (request_body rc.2) = Some (JString name) ∧
  status rc.2 = None.

(** Stand-ins for the libraries, for evaluating the handlers on examples. *)
Module Sample.
Definition libs : Libs :=
  {| bcrypt_hash := λ data _ salt, String.append salt data;
     bcrypt_compare := λ data hash, String.eqb (String.append "$2b$10$" data) hash;
     hmac_sign := λ key claims, String.append key (jwt_username claims);
     castObjectId := λ s, if String.length s =? 24 then Some {| toHexString := s |} else None;
     cast_condition := λ v,
       match v with
       | JNumber n => Normal (String.eqb (pretty n))
       | JBool b => Normal (String.eqb (if b then "true" else "false"))
       | _ => Throw (CastError "username")
       end |}.

Definition runtime (secret : option string) (oid : string) : Runtime :=
  {| JWT_SECRET := secret; now := 1700000000; salt := "$2b$10$";
     new_id := {| toHexString := oid |} |}.

Definition alice : User :=
  {| _id := {| toHexString := "64b000000000000000000001" |}; username := "alice";
     hashedPassword := Some "$2b$10$pw123456" |}.

Definition empty_db : Db := {| available := true; users := []; posts := [] |}.

Definition alice_db : Db := {| available := true; users := [alice]; posts := [] |}.

Definition bob_post : Post :=
  {| post_id := {| toHexString := "64b0000000000000000000aa" |}; title := "hello";
     post_body := "world"; tags := [];
     user := Some {| owner_id := IdObject {| toHexString := "64b000000000000000000002" |};
                     owner_username := "bob" |} |}.

Definition alice_post : Post :=
  {| post_id := {| toHexString := "64b0000000000000000000ab" |}; title := "hi";
     post_body := "there"; tags := [];
     user := Some {| owner_id := IdObject {| toHexString := "64b000000000000000000001" |};
                     owner_username := "alice" |} |}.

Definition alice_identity : Identity :=
  {| identity_id := IdString "64b000000000000000000001"; identity_username := "alice" |}.

Definition bob_post_world (who : option Identity) : World :=
  {| db := empty_db;
     ctx := request no_body
              "64b0000000000000000000aa"
              {| state_user := who; state_post := Some bob_post |} |}.

Definition alice_post_world (who : option Identity) : World :=
  {| db := empty_db;
     ctx := request no_body
              "64b0000000000000000000ab"
              {| state_user := who; state_post := Some alice_post |} |}.

Definition alice_again : World :=
  {| db := alice_db; ctx := request (credentials "alice" "anything") "" anonymous |}.

Definition alice_new : World :=
  {| db := empty_db; ctx := request (credentials "alice" "pw123456") "" anonymous |}.

Definition login_as (name password : string) : World :=
  {| db := alice_db; ctx := request (credentials name password) "" anonymous |}.

(** A login whose password is the number 1. *)
Definition number_password (name : string) : RequestBody :=
  {| body_username := Some (JString name); body_password := Some (JNumber 1);
     body_others := [] |}.

Definition login_with (b : RequestBody) : World :=
  {| db := alice_db; ctx := request b "" anonymous |}.

Definition alice_request (oid : string) : Runtime * Context :=
  (runtime (Some "secret") oid, request (credentials "alice" "pw123456") "" anonymous).

Definition alice_client (oid : string) : Concurrent.Client :=
  {| Concurrent.client_rt := (alice_request oid).1;
     Concurrent.client_ctx := (alice_request oid).2;
     Concurrent.task := Concurrent.Start |}.

Definition two_clients : Concurrent.System :=
  {| Concurrent.shared := empty_db;
     Concurrent.clients := [alice_client "64b000000000000000000001";
                            alice_client "64b000000000000000000002"] |}.

Definition alice_token : Token :=
  {| payload := {| jwt_id := "64b000000000000000000001"; jwt_username := "alice";
                   iat := 1700000000; exp := 1700604800 |};
     signature := "secretalice" |}.

Definition delete_request (id : string) : World :=
  {| db := {| available := true; users := [alice]; posts := [bob_post] |};
     ctx := request no_body id anonymous |}.
End Sample.


From stdpp Require Import sorting.

(** * The other handlers of the posts controllers

    What the two posts controllers hold besides [remove] and [checkOwnPost]:
    the guards [checkObjectId] and [getPostById], and [write], [list],
    [read] and [update].  Their answers carry posts, so their Koa context
    extends the one above. *)

(** ** Requests and answers *)

(** A field of a JSON body: absent, present with a value the schema does not
    take as one of its type, or given. *)
Inductive Field (A : Type) :=
| Absent
| IllTyped
| Given (a : A).
Arguments Absent {A}.
Arguments IllTyped {A}.
Arguments Given {A} a.

(** The body of a posts request: [title], [body], [tags], and the names of
    whatever other keys it has. *)
Record PostInput := {
  in_title : Field string;
  in_body : Field string;
  in_tags : Field (list string);
  in_others : list string;
}.

(** [ctx.query] *)
Record Query := {
  query_page : option string;
  query_tag : option string;
  query_username : option string;
}.

Inductive PostsBody :=
| OnePost (p : Post)
| ManyPosts (l : list Post)
| Rejected (e : ValidationError).

(** The context of a posts request: the context above, with the request body
    and query of these handlers, the body they answer with ([ctx.body]) and
    the [Last-Page] header. *)
Record Exchange := {
  world : World;
  input : PostInput;
  query : Query;
  sent : option PostsBody;
  last_page : option Z;
}.

Class PostsLibs := {
  (** [ObjectId.isValid(id)] *)
  ObjectId_isValid : string → bool;
  (** what a paged query answers when its [skip] is [NaN], given the matching
      documents in order *)
  skip_NaN : list Post → Completion (list Post);
}.

Definition PostsAsync (A : Type) : Type := Exchange → Completion A * Exchange.

Global Instance PostsAsync_ret : MRet PostsAsync := λ A a x, (Normal a, x).

Global Instance PostsAsync_bind : MBind PostsAsync := λ A B f m x,
  match m x with
  | (Normal a, x') => f a x'
  | (Throw e, x') => (Throw e, x')
  end.

Definition with_world (w : World) (x : Exchange) : Exchange :=
  {| world := w; input := input x; query := query x; sent := sent x;
     last_page := last_page x |}.

(** A computation on the smaller context, run inside the larger one. *)
Definition within {A} (m : Async A) : PostsAsync A := λ x,
  let (r, w) := m (world x) in (r, with_world w x).

Definition posts_try_catch {A} (m : PostsAsync A) (h : Error → PostsAsync A)
    : PostsAsync A := λ x,
  match m x with
  | (Throw e, x') => h e x'
  | r => r
  end.

Definition posts_throw {A} (e : Error) : PostsAsync A := λ x, (Throw e, x).

Definition get_exchange : PostsAsync Exchange := λ x, (Normal x, x).

(** [ctx.body = b] *)
Definition send (b : PostsBody) : PostsAsync unit := λ x,
  (Normal tt,
   {| world := world x; input := input x; query := query x; sent := Some b;
      last_page := last_page x |}).

(** [ctx.body = undefined]: Koa drops the body and, unless the status is
    already one of those without content, makes it 204. *)
Definition send_nothing : PostsAsync unit := λ x,
  let w :=
    match status (ctx (world x)) with
    | Some 204 | Some 205 | Some 304 => world x
    | _ => {| db := db (world x); ctx := with_status 204 (ctx (world x)) |}
    end in
  (Normal tt,
   {| world := w; input := input x; query := query x; sent := None;
      last_page := last_page x |}).

(** [ctx.set('Last-Page', n)] *)
Definition set_last_page (n : Z) : PostsAsync unit := λ x,
  (Normal tt,
   {| world := world x; input := input x; query := query x; sent := sent x;
      last_page := Some n |}).

Definition with_post (p : Post) (c : Context) : Context :=
  {| request_body := request_body c; params_id := params_id c;
     state := {| state_user := state_user (state c); state_post := Some p |};
     status := status c; body := body c; cookies := cookies c |}.

(** [ctx.state.post = p] *)
Definition set_state_post (p : Post) : PostsAsync unit :=
  within (modify_ctx (with_post p)).

(** The status Koa answers a posts request with. *)
Definition posts_status (r : Completion unit * Exchange) : nat :=
  match fst r with
  | Throw (HttpError s _) => s
  | Throw _ => 500
  | Normal _ =>
      match status (ctx (world (snd r))) with
      | Some s => s
      | None => match sent (snd r) with Some _ => 200 | None => 404 end
      end
  end.

(** A posts request as it reaches the first handler. *)
Definition posts_request (d : Db) (id : string) (st : State) (i : PostInput)
    (q : Query) : Exchange :=
  {| world := {| db := d;
                 ctx := request no_body id st |};
     input := i; query := q; sent := None; last_page := None |}.

Definition no_input : PostInput :=
  {| in_title := Absent; in_body := Absent; in_tags := Absent; in_others := [] |}.

Definition no_query : Query :=
  {| query_page := None; query_tag := None; query_username := None |}.

(** ** Validation of posts *)

(** [Joi.string()], required or not: a string that is not empty. *)
Definition joi_string (required : bool) (path : string) (f : Field string)
    : option ValidationError :=
  match f with
  | Absent => if required then Some {| error_path := path |} else None
  | IllTyped => Some {| error_path := path |}
  | Given "" => Some {| error_path := path |}
  | Given _ => None
  end.

(** [Joi.array().items(Joi.string())], required or not. *)
Definition joi_strings (required : bool) (path : string) (f : Field (list string))
    : option ValidationError :=
  match f with
  | Absent => if required then Some {| error_path := path |} else None
  | IllTyped => Some {| error_path := path |}
  | Given items =>
      if forallb (λ s, negb (String.eqb s "")) items
      then None
      else Some {| error_path := path |}
  end.

(** A key the schema does not list is not allowed. *)
Definition joi_unknown (others : list string) : option ValidationError :=
  match others with
  | [] => None
  | key :: _ => Some {| error_path := key |}
  end.

(** The first error, in the order of the keys. *)
Fixpoint first_error (checks : list (option ValidationError)) : option ValidationError :=
  match checks with
  | [] => None
  | Some e :: _ => Some e
  | None :: rest => first_error rest
  end.

(** The schema of [write]: the three keys, all required. *)
Definition write_schema (joi : JoiModule) (i : PostInput) : option ValidationError :=
  first_error [joi_string true "title" (in_title i);
               joi_string true "body" (in_body i);
               joi_strings true "tags" (in_tags i);
               joi_unknown (in_others i)].

(** The schema of [update]: the three keys, none required. *)
Definition update_schema (joi : JoiModule) (i : PostInput) : option ValidationError :=
  first_error [joi_string false "title" (in_title i);
               joi_string false "body" (in_body i);
               joi_strings false "tags" (in_tags i);
               joi_unknown (in_others i)].

(** ** The posts collection *)

Module PostModel.
Section WithLibs.
Context `{Libs}.
Context `{PostsLibs}.

(** [Post.findById(id)] *)
Definition findById (id : string) : Async (option Post) := λ w,
  match castObjectId id with
  | None => (Throw (CastError id), w)
  | Some oid =>
      if available (db w)
      then (Normal (find (PostsCtrl.has_id oid) (posts (db w))), w)
      else (Throw MongoError, w)
  end.

(** [post.save()] of a new document *)
Definition save (this : Post) : Async unit := λ w,
  if available (db w)
  then (Normal tt,
        {| db := {| available := true; users := users (db w);
                    posts := posts (db w) ++ [this] |};
           ctx := ctx w |})
  else (Throw MongoError, w).

(** The fields of the body that are given replace those of the document. *)
Definition given_or {A} (f : Field A) (old : A) : A :=
  match f with
  | Given a => a
  | _ => old
  end.

Definition updated (i : PostInput) (p : Post) : Post :=
  {| post_id := post_id p;
     title := given_or (in_title i) (title p);
     post_body := given_or (in_body i) (post_body p);
     tags := given_or (in_tags i) (tags p);
     user := user p |}.

(** The collection with [g] applied to the first document that satisfies [f]. *)
Fixpoint update_first (f : Post → bool) (g : Post → Post) (l : list Post) : list Post :=
  match l with
  | [] => []
  | p :: l' => if f p then g p :: l' else p :: update_first f g l'
  end.

(** [Post.findByIdAndUpdate(id, body, { new: true })]: the updated document,
    if there is one with that id. *)
Definition findByIdAndUpdate (id : string) (i : PostInput) : Async (option Post) := λ w,
  match castObjectId id with
  | None => (Throw (CastError id), w)
  | Some oid =>
      if available (db w)
      then (Normal (updated i <$> find (PostsCtrl.has_id oid) (posts (db w))),
            {| db := {| available := true; users := users (db w);
                        posts := update_first (PostsCtrl.has_id oid) (updated i)
                                   (posts (db w)) |};
               ctx := ctx w |})
      else (Throw MongoError, w)
  end.

(** [Post.find().exec()] *)
Definition find_all : Async (list Post) := λ w,
  if available (db w)
  then (Normal (posts (db w)), w)
  else (Throw MongoError, w).

(** The query [{ 'user.username': username, tags: tag }], each part only when
    the value is given and not empty. *)
Definition owned_by (name : string) (p : Post) : bool :=
  match user p with
  | Some owner => String.eqb (owner_username owner) name
  | None => false
  end.

Definition tagged (tag : string) (p : Post) : bool :=
  existsb (String.eqb tag) (tags p).

Definition truthy (v : option string) : option string :=
  match v with
  | Some "" | None => None
  | Some s => Some s
  end.

Definition matches (q : Query) (p : Post) : bool :=
  match truthy (query_username q) with
  | Some name => owned_by name p
  | None => true
  end
  &&
  match truthy (query_tag q) with
  | Some tag => tagged tag p
  | None => true
  end.

(** ObjectIds are ordered as their hexadecimal forms; [newer p q] when [p]
    comes no later than [q] under [sort({ _id: -1 })]. *)
Definition newer (p q : Post) : Prop :=
  String.leb (toHexString (post_id q)) (toHexString (post_id p)) = true.

Global Instance newer_dec (p q : Post) : Decision (newer p q).
Proof. unfold newer. apply _. Defined.

(** [Post.find(query).sort({ _id: -1 }).limit(10).skip(n).lean().exec()];
    [n] is [None] when it is [NaN]. *)
Definition find_page (q : Query) (n : option Z) : Async (list Post) := λ w,
  if available (db w)
  then
    let sorted := merge_sort newer (filter (λ p, matches q p = true) (posts (db w))) in
    match n with
    | Some n => (Normal (take 10 (drop (Z.to_nat n) sorted)), w)
    | None => (skip_NaN sorted, w)
    end
  else (Throw MongoError, w).

(** [Post.countDocuments(query).exec()] *)
Definition countDocuments (q : Query) : Async nat := λ w,
  if available (db w)
  then (Normal (length (filter (λ p, matches q p = true) (posts (db w)))), w)
  else (Throw MongoError, w).
End WithLibs.
End PostModel.

(** ** [parseInt] *)

Definition is_space (a : Ascii.ascii) : bool :=
  let n := Ascii.nat_of_ascii a in
  (n =? 32) || ((9 <=? n) && (n <=? 13)).

Definition digit_of (a : Ascii.ascii) : option Z :=
  let n := Ascii.nat_of_ascii a in
  if (48 <=? n) && (n <=? 57) then Some (Z.of_nat n - 48)%Z else None.

Fixpoint skip_spaces (s : string) : string :=
  match s with
  | String a rest => if is_space a then skip_spaces rest else s
  | EmptyString => s
  end.

(** The number the leading decimal digits of [s] spell, after [acc]. *)
Fixpoint digits (s : string) (acc : Z) : Z :=
  match s with
  | String a rest =>
      match digit_of a with
      | Some d => digits rest (acc * 10 + d)%Z
      | None => acc
      end
  | EmptyString => acc
  end.

Definition unsigned (s : string) : option Z :=
  match s with
  | String a _ =>
      match digit_of a with
      | Some _ => Some (digits s 0)
      | None => None
      end
  | EmptyString => None
  end.

(** [parseInt(s, 10)] on a string of ASCII characters: blanks, a sign, then
    digits up to the first other character; [None] is [NaN]. *)
Definition parseInt (s : string) : option Z :=
  match skip_spaces s with
  | String a rest =>
      if Ascii.eqb a (Ascii.ascii_of_nat 45) then Z.opp <$> unsigned rest
      else if Ascii.eqb a (Ascii.ascii_of_nat 43) then unsigned rest
      else unsigned (String a rest)
  | EmptyString => None
  end.

(** ** The first posts controller *)

Module PostsHandlersEarlier.
Section WithLibs.
Context `{Libs}.
Context `{PostsLibs}.
Import PostModel.

Definition checkObjectId (next : PostsAsync unit) : PostsAsync unit :=
  x ← get_exchange;
  let id := params_id (ctx (world x)) in
  if negb (ObjectId_isValid id)
  then within (set_status 400)
  else next.

(** [new Post({ title, body, tags })] *)
Definition new_Post (rt : Runtime) (title body : string) (tags : list string) : Post :=
  {| post_id := new_id rt; title := title; post_body := body; tags := tags;
     user := None |}.

Definition write (rt : Runtime) : PostsAsync unit :=
  let schema := write_schema Joi in
  x ← get_exchange;
  match schema (input x) with
  | Some error => within (set_status 400);; send (Rejected error)
  | None =>
      match in_title (input x), in_body (input x), in_tags (input x) with
      | Given title, Given body, Given tags =>
          let post := new_Post rt title body tags in
          posts_try_catch
            (within (save post);;
             send (OnePost post))
            (λ e, posts_throw (HttpError 500 e))
      | _, _, _ => posts_throw (TypeError "title, body or tags is undefined")
      end
  end.

Definition list : PostsAsync unit :=
  posts_try_catch
    (posts ← within find_all;
     send (ManyPosts posts))
    (λ e, posts_throw (HttpError 500 e)).

Definition read : PostsAsync unit :=
  x ← get_exchange;
  let id := params_id (ctx (world x)) in
  posts_try_catch
    (post ← within (findById id);
     match post with
     | None => within (set_status 404)
     | Some post => send (OnePost post)
     end)
    (λ e, posts_throw (HttpError 500 e)).

Definition update : PostsAsync unit :=
  x ← get_exchange;
  let id := params_id (ctx (world x)) in
  let schema := update_schema Joi in
  match schema (input x) with
  | Some error => within (set_status 400);; send (Rejected error)
  | None =>
      posts_try_catch
        (post ← within (findByIdAndUpdate id (input x));
         match post with
         | None => within (set_status 404)
         | Some post => send (OnePost post)
         end)
        (λ e, posts_throw (HttpError 500 e))
  end.
End WithLibs.
End PostsHandlersEarlier.

(** ** The second posts controller, besides [remove] and [checkOwnPost] *)

Module PostsHandlers.
Section WithLibs.
Context `{Libs}.
Context `{PostsLibs}.
Import PostModel.

(** The handler returns [next()] from inside its [try] without awaiting it:
    what [next] throws does not pass through the [catch]. *)
Definition getPostById (next : PostsAsync unit) : PostsAsync unit :=
  x ← get_exchange;
  let id := params_id (ctx (world x)) in
  if negb (ObjectId_isValid id)
  then within (set_status 400)
  else
    found ← posts_try_catch
               (within (findById id))
               (λ e, posts_throw (HttpError 500 e));
    match found with
    | None => within (set_status 404)
    | Some post => set_state_post post;; next
    end.

(** [user: ctx.state.user] *)
Definition owner_of (who : Identity) : Owner :=
  {| owner_id := identity_id who; owner_username := identity_username who |}.

(** Like [register], the handler opens with
    [const schema = schema.object().keys(...)]. *)
Definition write (rt : Runtime) : PostsAsync unit :=
  joi ← within (read_binding "schema" (@Uninitialized JoiModule));
  let schema := write_schema joi in
  x ← get_exchange;
  match schema (input x) with
  | Some error => within (set_status 400);; send (Rejected error)
  | None =>
      match in_title (input x), in_body (input x), in_tags (input x) with
      | Given title, Given body, Given tags =>
          let post :=
            {| post_id := new_id rt; title := title; post_body := body; tags := tags;
               user := owner_of <$> state_user (state (ctx (world x))) |} in
          posts_try_catch
            (within (save post);;
             send (OnePost post))
            (λ e, posts_throw (HttpError 500 e))
      | _, _, _ => posts_throw (TypeError "title, body or tags is undefined")
      end
  end.

(** [post.body.length < 200 ? post.body : `${post.body.slice(0, 200)}...`] *)
Definition shortened (p : Post) : Post :=
  {| post_id := post_id p; title := title p;
     post_body :=
       if String.length (post_body p) <? 200
       then post_body p
       else String.append (String.substring 0 200 (post_body p)) "...";
     tags := tags p; user := user p |}.

(** [Math.ceil(postCount / 10)] *)
Definition pages_of (postCount : nat) : Z := ((Z.of_nat postCount + 9) / 10)%Z.

Definition list : PostsAsync unit :=
  x ← get_exchange;
  let page := parseInt (default "1" (truthy (query_page (query x)))) in
  if match page with Some n => (n <? 1)%Z | None => false end
  then within (set_status 400)
  else
    posts_try_catch
      (posts ← within (find_page (query x) ((λ n, (n - 1) * 10)%Z <$> page));
       postCount ← within (countDocuments (query x));
       set_last_page (pages_of postCount);;
       send (ManyPosts (shortened <$> posts));;
       send (ManyPosts posts))
      (λ e, posts_throw (HttpError 500 e)).

Definition read : PostsAsync unit :=
  x ← get_exchange;
  match state_post (state (ctx (world x))) with
  | Some post => send (OnePost post)
  | None => send_nothing
  end.

Definition update : PostsAsync unit :=
  x ← get_exchange;
  let id := params_id (ctx (world x)) in
  let schema := update_schema Joi in
  match schema (input x) with
  | Some error => within (set_status 400);; send (Rejected error)
  | None =>
      posts_try_catch
        (post ← within (findByIdAndUpdate id (input x));
         match post with
         | None => within (set_status 404)
         | Some post => send (OnePost post)
         end)
        (λ e, posts_throw (HttpError 500 e))
  end.
End WithLibs.
End PostsHandlers.

(** ** What the properties speak of *)

(** The context once [getPostById] has left the post in [ctx.state.post]. *)
Definition with_loaded_post (p : Post) (x : Exchange) : Exchange :=
  with_world {| db := db (world x); ctx := with_post p (ctx (world x)) |} x.

(** A body [write] accepts: a title and a body that are not empty, tags that
    are not empty strings, and no other key. *)
Definition well_formed_post (i : PostInput) : Prop :=
  ∃ t b l,
    in_title i = Given t ∧ t ≠ "" ∧
    in_body i = Given b ∧ b ≠ "" ∧
    in_tags i = Given l ∧ Forall (λ s, s ≠ "") l ∧
    in_others i = [].

(** A body [update] accepts: each of the three keys absent or as [write]
    wants it, and no other key. *)
Definition acceptable_update (i : PostInput) : Prop :=
  (in_title i = Absent ∨ ∃ t, in_title i = Given t ∧ t ≠ "") ∧
  (in_body i = Absent ∨ ∃ b, in_body i = Given b ∧ b ≠ "") ∧
  (in_tags i = Absent ∨ ∃ l, in_tags i = Given l ∧ Forall (λ s, s ≠ "") l) ∧
  in_others i = [].

(** The posts a query selects, newest first. *)
Definition selected (q : Query) (d : Db) : list Post :=
  merge_sort PostModel.newer (filter (λ p, PostModel.matches q p = true) (posts d)).

(** The page a query asks for: [parseInt(ctx.query.page || '1', 10)]. *)
Definition asked_page (q : Query) : option Z :=
  parseInt (default "1" (PostModel.truthy (query_page q))).

(** Stand-ins and data for evaluating the posts handlers on examples. *)
Module SamplePosts.
Definition libs : PostsLibs :=
  {| ObjectId_isValid := λ s, String.length s =? 24;
     skip_NaN := λ _, Throw MongoError |}.

Definition long_body : string :=
  String.string_of_list_ascii (replicate 300 (Ascii.ascii_of_nat 120)).

Definition carol_post : Post :=
  {| post_id := {| toHexString := "64b0000000000000000000ac" |}; title := "long";
     post_body := long_body; tags := ["essay"];
     user := Some {| owner_id := IdObject {| toHexString := "64b000000000000000000003" |};
                     owner_username := "carol" |} |}.

Definition store : Db :=
  {| available := true; users := [Sample.alice];
     posts := [Sample.bob_post; Sample.alice_post; carol_post] |}.

Definition draft : PostInput :=
  {| in_title := Given "news"; in_body := Given "something happened";
     in_tags := Given ["daily"]; in_others := [] |}.

Definition retitle : PostInput :=
  {| in_title := Given "hello again"; in_body := Absent; in_tags := Absent;
     in_others := [] |}.

Definition page (n : string) : Query :=
  {| query_page := Some n; query_tag := None; query_username := None |}.

(** A request for the post of the given id by the given identity. *)
Definition ask (d : Db) (id : string) (who : option Identity) (i : PostInput) (q : Query)
    : Exchange :=
  posts_request d id {| state_user := who; state_post := None |} i q.
End SamplePosts.

(** * Properties *)

Ltac unfold_async :=
  unfold mbind, mret, Async_bind, Async_ret, try_catch, ctx_throw, throw, lift,
    get_ctx, set_status, set_body, cookies_set, modify_ctx, read_binding in *.

(** ** Ownership check *)

Section Ownership.
Import PostsCtrl.

Lemma strict_neq_string (s t : string) :
  strict_neq s (IdString t) = false ↔ s = t.
Proof.
  simpl. rewrite negb_false_iff. apply String.eqb_eq.
Qed.

Lemma checkOwnPost_reads (next : Async unit) (w : World) post owner who :
  state_post (state (ctx w)) = Some post →
  user post = Some owner →
  state_user (state (ctx w)) = Some who →
  checkOwnPost next w =
    if strict_neq (toString (owner_id owner)) (identity_id who)
    then set_status 403 w else next w.
Proof.
  intros Hpost Howner Hwho.
  unfold checkOwnPost, mbind, Async_bind, get_ctx.
  rewrite Hpost, Howner, Hwho.
  by destruct (strict_neq _ _).
Qed.

(** An identity whose id is not a string is turned away whoever the owner
    is: only the owner's side is turned into a string. *)
Lemma checkOwnPost_object_identity (next : Async unit) (w : World) post owner who oid :
  state_post (state (ctx w)) = Some post →
  user post = Some owner →
  state_user (state (ctx w)) = Some who →
  identity_id who = IdObject oid →
  checkOwnPost next w = set_status 403 w.
Proof.
  intros Hpost Howner Hwho Hid.
  rewrite (checkOwnPost_reads next w post owner who) by done.
  by rewrite Hid.
Qed.

(** C1, as the code has it: for an authenticated identity whose id is a
    string (as a decoded token carries it) and a post with an owner, the
    check answers 403 when the owner id, as a string, differs from the
    identity's id, and hands over to the next handler when the two are
    equal. *)
Theorem checkOwnPost_authenticated (next : Async unit) (w : World)
    (post : Post) (owner : Owner) (who : Identity) (sid : string) :
  state_post (state (ctx w)) = Some post →
  user post = Some owner →
  state_user (state (ctx w)) = Some who →
  identity_id who = IdString sid →
  (¬ canonically_equal (owner_id owner) (identity_id who) →
     checkOwnPost next w = set_status 403 w) ∧
  (canonically_equal (owner_id owner) (identity_id who) →
     checkOwnPost next w = next w).
Proof.
  intros Hpost Howner Hwho Hid.
  rewrite (checkOwnPost_reads next w post owner who) by done.
  unfold canonically_equal. rewrite Hid. simpl toString.
  destruct (strict_neq _ _) eqn:Hneq.
  - split; [done |].
    intros Heq. apply strict_neq_string in Heq. congruence.
  - apply strict_neq_string in Hneq. split; [done | done].
Qed.
End Ownership.

(** ** Registration and login *)

Section Auth.
Context `{Libs}.
Import UserModel.

Lemma serialize_hides_hash (u : User) :
  serialize u !! "hashedPassword" = None.
Proof. unfold serialize. apply lookup_delete_eq. Qed.

(** The handler of auth.ctrl.js never gets past its first statement. *)
Lemma register_uninitialized (rt : Runtime) (w : World) :
  AuthCtrl.register rt w = (Throw (ReferenceError "schema"), w).
Proof. reflexivity. Qed.

Lemma register_schema_fields (b : RequestBody) :
  register_schema Joi b = None →
  ∃ name password,
    body_username b = Some (JString name) ∧ body_password b = Some (JString password).
Proof.
  unfold register_schema. intros Hvalid.
  destruct (body_username b) as [[| | | name | |] |]; try done.
  destruct (_ && _); [| done].
  destruct (body_password b) as [[| | | password | |] |]; try done.
  by exists name, password.
Qed.

Lemma findOne_string (name : string) (d : Db) :
  findOne (JString name) d =
    if available d then Normal (find (has_username name) (users d)) else Throw MongoError.
Proof. done. Qed.

Lemma findByUsername_available (name : string) (w : World) :
  available (db w) = true →
  findByUsername (JString name) w
  = (Normal (find (has_username name) (users (db w))), w).
Proof. intros Hup. unfold findByUsername. by rewrite findOne_string, Hup. Qed.

(** The earlier handler answers 409 for a username that is taken and
    touches nothing else. *)
Lemma register_earlier_conflict (rt : Runtime) (w : World) (name : string) (u : User) :
  available (db w) = true →
  register_schema Joi (request_body (ctx w)) = None →
  body_username (request_body (ctx w)) = Some (JString name) →
  find (has_username name) (users (db w)) = Some u →
  AuthCtrlEarlier.register rt w = set_status 409 w.
Proof.
  intros Hup Hvalid Hname Hfound.
  destruct (register_schema_fields _ Hvalid) as (name' & password & Hn & Hp).
  unfold AuthCtrlEarlier.register. unfold_async.
  rewrite Hvalid, Hname, Hp.
  rewrite findByUsername_available by done.
  by rewrite Hfound.
Qed.

(** For a username that is free it stores the new user and answers with the
    serialized document; no cookie is set. *)
Lemma register_earlier_fresh (rt : Runtime) (w : World) (name password : string) :
  available (db w) = true →
  register_schema Joi (request_body (ctx w)) = None →
  body_username (request_body (ctx w)) = Some (JString name) →
  body_password (request_body (ctx w)) = Some (JString password) →
  find (has_username name) (users (db w)) = None →
  AuthCtrlEarlier.register rt w =
    (Normal tt,
     {| db := insert_user (registered rt name password) (db w);
        ctx := with_body (JsonBody (serialize (registered rt name password))) (ctx w) |}).
Proof.
  intros Hup Hvalid Hname Hpw Hfree.
  unfold AuthCtrlEarlier.register. unfold_async.
  rewrite Hvalid, Hname, Hpw.
  rewrite findByUsername_available by done.
  rewrite Hfree. unfold setPassword, save, new_User. unfold_async. simpl.
  by rewrite Hup.
Qed.

(** C3, at the failing input: alice is registered and registers again.
    The handler of auth.ctrl.js throws a ReferenceError at its first
    statement, so Koa answers 500 and not 409; the earlier handler answers
    409 there.  Neither touches the store. *)
Theorem register_taken_username_throws (rt : Runtime) :
  AuthCtrl.register rt Sample.alice_again
    = (Throw (ReferenceError "schema"), Sample.alice_again)
  ∧ response_status (AuthCtrl.register rt Sample.alice_again) = 500
  ∧ AuthCtrlEarlier.register rt Sample.alice_again
    = set_status 409 Sample.alice_again
  ∧ db (snd (AuthCtrlEarlier.register rt Sample.alice_again)) = Sample.alice_db.
Proof.
  assert (AuthCtrlEarlier.register rt Sample.alice_again
          = set_status 409 Sample.alice_again) as Hconflict.
  { by apply (register_earlier_conflict rt Sample.alice_again "alice" Sample.alice). }
  rewrite Hconflict. by rewrite register_uninitialized.
Qed.

(** C7, at the failing input: alice registers with a free username while the
    signing secret is set.  The handler of auth.ctrl.js throws before it
    stores her or sets the cookie, and Koa answers 500 with no cookie; the
    earlier handler registers her and answers 200 without any cookie. *)
Theorem register_success_without_cookie (rt : Runtime) :
  AuthCtrl.register rt Sample.alice_new
    = (Throw (ReferenceError "schema"), Sample.alice_new)
  ∧ response (AuthCtrl.register rt Sample.alice_new) = (500, None, [])
  ∧ response_status (AuthCtrlEarlier.register rt Sample.alice_new) = 200
  ∧ users (db (snd (AuthCtrlEarlier.register rt Sample.alice_new)))
    = [registered rt "alice" "pw123456"]
  ∧ cookies (ctx (snd (AuthCtrlEarlier.register rt Sample.alice_new))) = [].
Proof.
  rewrite (register_earlier_fresh rt Sample.alice_new "alice" "pw123456") by done.
  by rewrite register_uninitialized.
Qed.

(** *** Login *)

Lemma generateToken_cases (rt : Runtime) (u : User) :
  match JWT_SECRET rt with
  | None | Some "" =>
      generateToken rt u = Throw (JwtError "secretOrPrivateKey must have a value")
  | Some key =>
      generateToken rt u =
        Normal {| payload := {| jwt_id := id u; jwt_username := username u;
                                iat := now rt; exp := now rt + 604800 |};
                  signature := hmac_sign key
                    {| jwt_id := id u; jwt_username := username u;
                       iat := now rt; exp := now rt + 604800 |} |}
  end.
Proof.
  unfold generateToken, jwt_sign. destruct (JWT_SECRET rt) as [[| a key] |]; done.
Qed.

Lemma missing_dec (field : option Json) :
  missing field ∨ ∃ v, field = Some v ∧ falsy v = false.
Proof.
  unfold missing. destruct field as [v |]; [| by left; left].
  destruct (falsy v) eqn:Hv; [left; right | right]; by exists v.
Qed.

Lemma login_missing (rt : Runtime) (w : World) :
  missing (body_username (request_body (ctx w)))
  ∨ missing (body_password (request_body (ctx w))) →
  AuthCtrl.login rt w = set_status 401 w.
Proof.
  unfold missing, AuthCtrl.login. unfold_async.
  destruct (body_username _) as [username|], (body_password _) as [password|]; try done.
  intros [[? | (v & [= <-] & ->)] | [? | (v & [= <-] & ->)]]; try done.
  by rewrite orb_true_r.
Qed.

(** With both fields present and truthy, [login] is decided by the lookup,
    the comparison and the signing. *)
Lemma login_steps (rt : Runtime) (w : World) (username password : Json) :
  body_username (request_body (ctx w)) = Some username →
  body_password (request_body (ctx w)) = Some password →
  falsy username = false → falsy password = false →
  AuthCtrl.login rt w =
    match findOne username (db w) with
    | Throw e => (Throw (HttpError 500 e), w)
    | Normal None => set_status 401 w
    | Normal (Some u) =>
        match password, hashedPassword u with
        | JString data, Some hash =>
            if bcrypt_compare data hash
            then
              let w' := {| db := db w; ctx := with_body (JsonBody (serialize u)) (ctx w) |} in
              match generateToken rt u with
              | Normal token =>
                  (Normal tt, {| db := db w; ctx := with_cookie (access_token token) (ctx w') |})
              | Throw e => (Throw (HttpError 500 e), w')
              end
            else set_status 401 w
        | _, _ => (Throw (HttpError 500 BcryptError), w)
        end
    end.
Proof.
  intros Hname Hpw Hn Hp.
  unfold AuthCtrl.login, findByUsername. unfold_async.
  rewrite Hname, Hpw, Hn, Hp. simpl.
  destruct (findOne username (db w)) as [[u |] | e]; [| done | done].
  unfold checkPassword. unfold_async.
  destruct password as [| | | data | |], (hashedPassword u) as [hash |]; try done.
  destruct (bcrypt_compare data hash); [| done]. simpl.
  by destruct (generateToken rt u).
Qed.

(** The same for a username and a password that are strings, with the
    database reachable. *)
Lemma login_lookup (rt : Runtime) (w : World) (name pw : string) :
  body_username (request_body (ctx w)) = Some (JString name) →
  body_password (request_body (ctx w)) = Some (JString pw) →
  name ≠ "" → pw ≠ "" →
  available (db w) = true →
  AuthCtrl.login rt w =
    match find (has_username name) (users (db w)) with
    | None => set_status 401 w
    | Some u =>
        match hashedPassword u with
        | None => (Throw (HttpError 500 BcryptError), w)
        | Some hash =>
            if bcrypt_compare pw hash
            then
              let w' := {| db := db w; ctx := with_body (JsonBody (serialize u)) (ctx w) |} in
              match generateToken rt u with
              | Normal token =>
                  (Normal tt, {| db := db w; ctx := with_cookie (access_token token) (ctx w') |})
              | Throw e => (Throw (HttpError 500 e), w')
              end
            else set_status 401 w
        end
    end.
Proof.
  intros Hname Hpw Hn Hp Hup.
  apply String.eqb_neq in Hn, Hp.
  rewrite (login_steps rt w (JString name) (JString pw)) by done.
  rewrite findOne_string, Hup.
  destruct (find _ _) as [u |]; [| done].
  by destruct (hashedPassword u).
Qed.

Lemma login_earlier_missing (rt : Runtime) (w : World) :
  missing (body_username (request_body (ctx w)))
  ∨ missing (body_password (request_body (ctx w))) →
  AuthCtrlEarlier.login rt w = set_status 401 w.
Proof.
  unfold missing, AuthCtrlEarlier.login. unfold_async.
  destruct (body_username _) as [username|], (body_password _) as [password|]; try done.
  intros [[? | (v & [= <-] & ->)] | [? | (v & [= <-] & ->)]]; try done.
  by rewrite orb_true_r.
Qed.

Lemma login_earlier_steps (rt : Runtime) (w : World) (username password : Json) :
  body_username (request_body (ctx w)) = Some username →
  body_password (request_body (ctx w)) = Some password →
  falsy username = false → falsy password = false →
  AuthCtrlEarlier.login rt w =
    match findOne username (db w) with
    | Throw e => (Throw (HttpError 500 e), w)
    | Normal None => set_status 401 w
    | Normal (Some u) =>
        match password, hashedPassword u with
        | JString data, Some hash =>
            if bcrypt_compare data hash
            then set_body (JsonBody (serialize u)) w
            else set_status 401 w
        | _, _ => (Throw (HttpError 500 BcryptError), w)
        end
    end.
Proof.
  intros Hname Hpw Hn Hp.
  unfold AuthCtrlEarlier.login, findByUsername. unfold_async.
  rewrite Hname, Hpw, Hn, Hp. simpl.
  destruct (findOne username (db w)) as [[u |] | e]; [| done | done].
  unfold checkPassword. unfold_async.
  destruct password as [| | | data | |], (hashedPassword u) as [hash |]; try done.
  by destruct (bcrypt_compare data hash).
Qed.

Lemma login_earlier_lookup (rt : Runtime) (w : World) (name pw : string) :
  body_username (request_body (ctx w)) = Some (JString name) →
  body_password (request_body (ctx w)) = Some (JString pw) →
  name ≠ "" → pw ≠ "" →
  available (db w) = true →
  AuthCtrlEarlier.login rt w =
    match find (has_username name) (users (db w)) with
    | None => set_status 401 w
    | Some u =>
        match hashedPassword u with
        | None => (Throw (HttpError 500 BcryptError), w)
        | Some hash =>
            if bcrypt_compare pw hash
            then set_body (JsonBody (serialize u)) w
            else set_status 401 w
        end
    end.
Proof.
  intros Hname Hpw Hn Hp Hup.
  apply String.eqb_neq in Hn, Hp.
  rewrite (login_earlier_steps rt w (JString name) (JString pw)) by done.
  rewrite findOne_string, Hup.
  destruct (find _ _) as [u |]; [| done].
  by destruct (hashedPassword u).
Qed.

(** Both login handlers answer 401, and do nothing else, when the
    credentials fail. *)
Lemma login_rejected (rt : Runtime) (w : World) :
  credentials_fail (db w) (request_body (ctx w)) →
  AuthCtrl.login rt w = set_status 401 w
  ∧ AuthCtrlEarlier.login rt w = set_status 401 w.
Proof.
  intros [Hm | [Hm | (username & Hname & Hbad)]].
  { split; [apply login_missing | apply login_earlier_missing]; by left. }
  { split; [apply login_missing | apply login_earlier_missing]; by right. }
  destruct (missing_dec (body_username (request_body (ctx w)))) as [Hmn | (v & Hv & Hn)].
  { split; [apply login_missing | apply login_earlier_missing]; by left. }
  destruct (missing_dec (body_password (request_body (ctx w)))) as [Hmp | (password & Hpw & Hp)].
  { split; [apply login_missing | apply login_earlier_missing]; by right. }
  assert (v = username) as -> by congruence.
  rewrite (login_steps rt w username password) by done.
  rewrite (login_earlier_steps rt w username password) by done.
  destruct Hbad as [-> | (u & hash & s & -> & Hhash & Hs & Hcmp)]; [done |].
  assert (password = JString s) as -> by congruence.
  by rewrite Hhash, Hcmp.
Qed.

(** Both login handlers answer 500 when the lookup finds a user and the
    password is a truthy value that is not a string: [bcrypt.compare]
    rejects it. *)
Lemma login_password_not_a_string (rt : Runtime) (w : World) (username password : Json)
    (u : User) :
  body_username (request_body (ctx w)) = Some username →
  body_password (request_body (ctx w)) = Some password →
  falsy username = false → falsy password = false →
  (∀ s, password ≠ JString s) →
  findOne username (db w) = Normal (Some u) →
  AuthCtrl.login rt w = (Throw (HttpError 500 BcryptError), w)
  ∧ AuthCtrlEarlier.login rt w = (Throw (HttpError 500 BcryptError), w).
Proof.
  intros Hname Hpw Hn Hp Hns Hfound.
  rewrite (login_steps rt w username password) by done.
  rewrite (login_earlier_steps rt w username password) by done.
  rewrite Hfound.
  destruct password as [| | | s | |]; try done.
  by destruct (Hns s).
Qed.

(** C5, as the code has it: a login whose username the lookup finds nobody
    for and a login with a known username and a password that is a string
    and does not match the stored hash get the same answer from either login
    handler -- status 401, no body, no cookie -- whatever else the two
    requests carry.  A truthy password that is not a string is told apart:
    with a known username it is answered 500, with an unknown one 401. *)
Theorem login_failures_indistinguishable (rt1 rt2 : Runtime) (d : Db)
    (id1 id2 : string) (st1 st2 : State) (b1 b2 : RequestBody)
    (username1 username2 : Json) (u : User) (hash : string) :
  body_username b1 = Some username1 →
  findOne username1 d = Normal None →
  body_username b2 = Some username2 →
  findOne username2 d = Normal (Some u) →
  hashedPassword u = Some hash →
  let unknown := {| db := d; ctx := request b1 id1 st1 |} in
  let known := {| db := d; ctx := request b2 id2 st2 |} in
  (∀ password2,
     body_password b2 = Some (JString password2) →
     bcrypt_compare password2 hash = false →
     response (AuthCtrl.login rt1 unknown) = response (AuthCtrl.login rt2 known)
     ∧ response (AuthCtrl.login rt1 unknown) = (401, None, [])
     ∧ response (AuthCtrlEarlier.login rt1 unknown)
       = response (AuthCtrlEarlier.login rt2 known)
     ∧ response (AuthCtrlEarlier.login rt1 unknown) = (401, None, []))
  ∧ (∀ password2,
       body_password b2 = Some password2 →
       falsy username2 = false → falsy password2 = false →
       (∀ s, password2 ≠ JString s) →
       response (AuthCtrl.login rt1 unknown) = (401, None, [])
       ∧ response (AuthCtrl.login rt2 known) = (500, None, [])
       ∧ response (AuthCtrlEarlier.login rt1 unknown) = (401, None, [])
       ∧ response (AuthCtrlEarlier.login rt2 known) = (500, None, [])).
Proof.
  intros Hname1 Hunknown Hname2 Hknown Hhash unknown known. subst unknown known.
  destruct (login_rejected rt1 {| db := d; ctx := request b1 id1 st1 |}) as [-> ->].
  { right; right. exists username1. split; [done | by left]. }
  split.
  - intros password2 Hpw2 Hwrong.
    destruct (login_rejected rt2 {| db := d; ctx := request b2 id2 st2 |}) as [-> ->].
    { right; right. exists username2. split; [done |]. right. by exists u, hash, password2. }
    done.
  - intros password2 Hpw2 Hn2 Hp2 Hns.
    destruct (login_password_not_a_string rt2 {| db := d; ctx := request b2 id2 st2 |}
                username2 password2 u) as [-> ->]; done.
Qed.

(** A login whose password verifies, with a token signed: the answer carries
    the serialized user and one cookie, [access_token], not readable by
    scripts, whose age in milliseconds is the token's lifetime in seconds
    times 1000. *)
Lemma login_sets_cookie (rt : Runtime) (w : World) (name password : string)
    (u : User) (hash : string) (token : Token) :
  body_username (request_body (ctx w)) = Some (JString name) →
  body_password (request_body (ctx w)) = Some (JString password) →
  name ≠ "" → password ≠ "" →
  available (db w) = true →
  find (has_username name) (users (db w)) = Some u →
  hashedPassword u = Some hash →
  bcrypt_compare password hash = true →
  generateToken rt u = Normal token →
  AuthCtrl.login rt w =
    (Normal tt,
     {| db := db w;
        ctx := with_cookie (access_token token)
                 (with_body (JsonBody (serialize u)) (ctx w)) |})
  ∧ cookie_name (access_token token) = "access_token"
  ∧ httpOnly (access_token token) = true
  ∧ maxAge (access_token token) = Some (1000 * expiresIn)%Z.
Proof.
  intros Hname Hpw Hn Hp Hup Hfind Hhash Hcmp Htoken.
  rewrite (login_lookup rt w name password) by done.
  by rewrite Hfind, Hhash, Hcmp, Htoken.
Qed.

(** Failing and verifying exclude each other. *)
Lemma credentials_fail_not_verify (d : Db) (b : RequestBody) (u : User) :
  credentials_fail d b → credentials_verify d b u → False.
Proof.
  intros Hfail (username & hash & password & Hname & Hn & Hfound & Hhash & Hpw & Hp & Hcmp).
  apply String.eqb_neq in Hp.
  destruct Hfail as [[Hm | (v & Hv & Hf)] | [[Hm | (v & Hv & Hf)] | (v & Hv & Hbad)]];
    try congruence.
  - assert (v = JString password) as -> by congruence. simpl in Hf. congruence.
  - assert (v = username) as -> by congruence.
    destruct Hbad as [Hnone | (u' & hash' & s & Hu' & Hh' & Hs & Hc')]; [congruence |].
    assert (u' = u) as -> by congruence.
    assert (s = password) as -> by congruence.
    congruence.
Qed.

(** What [login] answers, by what the credentials are. *)
Lemma login_outcomes (rt : Runtime) (d : Db) (b : RequestBody) (id : string) (st : State) :
  let r := AuthCtrl.login rt {| db := d; ctx := request b id st |} in
  (credentials_fail d b ∧ response_status r = 401)
  ∨ (∃ u, credentials_verify d b u ∧ secret_set rt
          ∧ response_status r = 200 ∧ returned r = Some (serialize u))
  ∨ (¬ credentials_fail d b ∧ ¬ (∃ u, credentials_verify d b u ∧ secret_set rt)
     ∧ response_status r = 500).
Proof.
  intros r. subst r.
  set (w := {| db := d; ctx := request b id st |}).
  destruct (missing_dec (body_username b)) as [Hmn | (username & Hname & Hn)].
  { left. rewrite (login_missing rt w) by (by left). split; [by left | done]. }
  destruct (missing_dec (body_password b)) as [Hmp | (password & Hpw & Hp)].
  { left. rewrite (login_missing rt w) by (by right). split; [by right; left | done]. }
  assert (¬ missing (body_username b)) as Hnm.
  { intros [Hm | (v & Hv & Hf)]; congruence. }
  assert (¬ missing (body_password b)) as Hpm.
  { intros [Hm | (v & Hv & Hf)]; congruence. }
  rewrite (login_steps rt w username password) by done.
  simpl db.
  assert (credentials_fail d b →
          findOne username d = Normal None
          ∨ ∃ u' hash' s, findOne username d = Normal (Some u') ∧
                          hashedPassword u' = Some hash' ∧ password = JString s ∧
                          bcrypt_compare s hash' = false) as Hfail.
  { intros [? | [? | (v & Hv & Hbad)]]; [done.. |].
    assert (v = username) as -> by congruence.
    destruct Hbad as [? | (u' & hash' & s & ? & ? & ? & ?)]; [by left |].
    right. exists u', hash', s. repeat split; congruence. }
  assert ((∃ u', credentials_verify d b u' ∧ secret_set rt) →
          ∃ u' hash' s, findOne username d = Normal (Some u') ∧
                        hashedPassword u' = Some hash' ∧ password = JString s ∧
                        bcrypt_compare s hash' = true) as Hverify.
  { intros (u' & (v & hash' & s & Hv & _ & ? & ? & ? & _ & ?) & _).
    assert (v = username) as -> by congruence.
    exists u', hash', s. repeat split; congruence. }
  destruct (findOne username d) as [[u |] | e] eqn:Hfound.
  2:{ left. split; [| done]. right; right. exists username. split; [done | by left]. }
  2:{ right; right. split; [| split; [| done]].
      - intros Hf. destruct (Hfail Hf) as [? | (? & ? & ? & ? & _)]; congruence.
      - intros Hv. destruct (Hverify Hv) as (? & ? & ? & ? & _). congruence. }
  destruct password as [| | | data | |], (hashedPassword u) as [hash |] eqn:Hhash.
  all: try (right; right; split; [| split; [| done]];
            [ intros Hf; destruct (Hfail Hf) as [? | (? & ? & ? & ? & ? & ? & _)]; congruence
            | intros Hv; destruct (Hverify Hv) as (? & ? & ? & ? & ? & ? & _); congruence ]).
  destruct (bcrypt_compare data hash) eqn:Hcmp.
  2:{ left. split; [| done]. right; right. exists username. split; [done |].
      right. by exists u, hash, data. }
  assert (credentials_verify d b u) as Hok.
  { exists username, hash, data. repeat split; try done.
    intros ->. simpl in Hp. congruence. }
  assert (¬ credentials_fail d b) as Hnofail.
  { intros Hf. by eapply credentials_fail_not_verify. }
  pose proof (generateToken_cases rt u) as Htoken.
  simpl.
  destruct (JWT_SECRET rt) as [[| a key] |] eqn:Hsecret; rewrite Htoken.
  - right; right. split; [done |]. split; [| done].
    intros (u' & _ & key & Hkey & Hne). congruence.
  - right; left. exists u. split; [done |]. split; [| done].
    by exists (String a key).
  - right; right. split; [done |]. split; [| done].
    intros (u' & _ & key & Hkey & Hne). congruence.
Qed.

(** C9, as the code has it: [login] answers 401 exactly when the credentials
    fail (a missing username or password, a username the lookup finds nobody
    for, a password that [bcrypt.compare] finds not to match the stored
    hash).  It answers 200 exactly when the credentials verify and the
    signing secret is set, and then with the serialized user.  Otherwise the
    answer is 500. *)
Theorem login_unauthorized_iff (rt : Runtime) (d : Db) (b : RequestBody)
    (id : string) (st : State) :
  let r := AuthCtrl.login rt {| db := d; ctx := request b id st |} in
  (response_status r = 401 ↔ credentials_fail d b)
  ∧ (response_status r = 200 ↔ ∃ u, credentials_verify d b u ∧ secret_set rt)
  ∧ (∀ u, credentials_verify d b u → secret_set rt → returned r = Some (serialize u))
  ∧ (response_status r = 500 ↔
     ¬ credentials_fail d b ∧ ¬ ∃ u, credentials_verify d b u ∧ secret_set rt).
Proof.
  intros r.
  assert (∀ u u', credentials_verify d b u → credentials_verify d b u' → u = u') as Hsame.
  { intros u u' (v & ? & ? & Hv & _ & Hu & _) (v' & ? & ? & Hv' & _ & Hu' & _).
    assert (v' = v) as -> by congruence. congruence. }
  destruct (login_outcomes rt d b id st)
    as [[Hfail Hs] | [(u & Hok & Hkey & Hs & Hbody) | (Hnofail & Hnok & Hs)]];
    fold r in Hs; try fold r in Hbody; rewrite Hs.
  - split; [done |]. split; [| split].
    + split; [done |]. intros (u & Hok & _). by destruct (credentials_fail_not_verify d b u).
    + intros u Hok _. by destruct (credentials_fail_not_verify d b u).
    + split; [done | by intros [? _]].
  - split; [| split; [| split]].
    + split; [done |]. intros Hfail. by destruct (credentials_fail_not_verify d b u).
    + split; [intros _; by exists u | done].
    + intros u' Hok' _. by rewrite (Hsame u' u).
    + split; [done |]. intros [_ Hn]. destruct Hn. by exists u.
  - split; [| split; [| split]].
    + split; [done | by intros ?].
    + split; [done | by intros ?].
    + intros u Hok Hkey. destruct Hnok. by exists u.
    + done.
Qed.

(** *** What the handlers return *)

Lemma login_returns (rt : Runtime) (d : Db) (b : RequestBody) (id : string)
    (st : State) (o : gmap string Value) :
  returned (AuthCtrl.login rt {| db := d; ctx := request b id st |}) = Some o →
  ∃ u, o = serialize u.
Proof.
  set (w := {| db := d; ctx := request b id st |}).
  destruct (missing_dec (body_username b)) as [Hmn | (username & Hname & Hn)].
  { by rewrite (login_missing rt w) by (by left). }
  destruct (missing_dec (body_password b)) as [Hmp | (password & Hpw & Hp)].
  { by rewrite (login_missing rt w) by (by right). }
  rewrite (login_steps rt w username password) by done.
  repeat case_match; unfold returned; simpl; try done.
  all: intros [= <-]; eauto.
Qed.

Lemma login_earlier_returns (rt : Runtime) (d : Db) (b : RequestBody) (id : string)
    (st : State) (o : gmap string Value) :
  returned (AuthCtrlEarlier.login rt {| db := d; ctx := request b id st |}) = Some o →
  ∃ u, o = serialize u.
Proof.
  set (w := {| db := d; ctx := request b id st |}).
  destruct (missing_dec (body_username b)) as [Hmn | (username & Hname & Hn)].
  { by rewrite (login_earlier_missing rt w) by (by left). }
  destruct (missing_dec (body_password b)) as [Hmp | (password & Hpw & Hp)].
  { by rewrite (login_earlier_missing rt w) by (by right). }
  rewrite (login_earlier_steps rt w username password) by done.
  repeat case_match; unfold returned; simpl; try done.
  all: intros [= <-]; eauto.
Qed.

Lemma register_earlier_returns (rt : Runtime) (d : Db) (b : RequestBody) (id : string)
    (st : State) (o : gmap string Value) :
  returned (AuthCtrlEarlier.register rt {| db := d; ctx := request b id st |}) = Some o →
  ∃ u, o = serialize u.
Proof.
  unfold AuthCtrlEarlier.register, findByUsername, save, setPassword, returned.
  unfold_async. simpl.
  destruct (register_schema Joi b) eqn:Hschema; simpl; [done |].
  destruct (register_schema_fields _ Hschema) as (name & password & -> & ->).
  rewrite findOne_string. simpl.
  destruct (available d) eqn:Hup; simpl; [| done].
  destruct (find _ _); simpl; [done |].
  rewrite Hup. simpl. intros [= <-]. eauto.
Qed.

Lemma identity_json_no_hash (u : Identity) :
  AuthCtrl.identity_json u !! "hashedPassword" = None.
Proof.
  unfold AuthCtrl.identity_json.
  rewrite lookup_insert_ne by done. by rewrite lookup_singleton_ne.
Qed.

Lemma check_returns (d : Db) (b : RequestBody) (id : string) (st : State)
    (o : gmap string Value) :
  returned (AuthCtrl.check {| db := d; ctx := request b id st |}) = Some o →
  ∃ u, o = AuthCtrl.identity_json u.
Proof.
  unfold AuthCtrl.check. unfold_async. simpl.
  destruct (state_user st) as [u |]; [| done].
  unfold returned. simpl. intros [= <-]. eauto.
Qed.

(** C6: whatever object a registration, a login or a session check leaves as
    the body of its answer, that object has no [hashedPassword] field. *)
Theorem no_password_hash_returned (rt : Runtime) (d : Db) (b : RequestBody)
    (id : string) (st : State) (o : gmap string Value) :
  let w := {| db := d; ctx := request b id st |} in
  returned (AuthCtrl.register rt w) = Some o
  ∨ returned (AuthCtrlEarlier.register rt w) = Some o
  ∨ returned (AuthCtrl.login rt w) = Some o
  ∨ returned (AuthCtrlEarlier.login rt w) = Some o
  ∨ returned (AuthCtrl.check w) = Some o →
  o !! "hashedPassword" = None.
Proof.
  intros w [Hr | [Hr | [Hr | [Hr | Hr]]]].
  - by rewrite register_uninitialized in Hr.
  - apply register_earlier_returns in Hr as [u ->]. apply serialize_hides_hash.
  - apply login_returns in Hr as [u ->]. apply serialize_hides_hash.
  - apply login_earlier_returns in Hr as [u ->]. apply serialize_hides_hash.
  - apply check_returns in Hr as [u ->]. apply identity_json_no_hash.
Qed.

(** *** Tokens *)

(** C8, as the code has it: [generateToken] reads the secret from the process
    environment each time it is called.  With the secret absent or empty it
    throws instead of signing; a token it returns is signed with the
    non-empty secret the environment holds at that call.  Nothing stops a
    request from being served without a secret: a login whose password
    verifies is then answered 500. *)
Theorem generateToken_secret_at_call (rt : Runtime) (u : User) :
  (JWT_SECRET rt = None ∨ JWT_SECRET rt = Some "" →
     generateToken rt u = Throw (JwtError "secretOrPrivateKey must have a value"))
  ∧ (∀ token, generateToken rt u = Normal token →
       ∃ key, JWT_SECRET rt = Some key ∧ key ≠ "" ∧
              signature token = hmac_sign key (payload token))
  ∧ (∀ d id st name password hash,
       JWT_SECRET rt = None ∨ JWT_SECRET rt = Some "" →
       available d = true →
       name ≠ "" → password ≠ "" →
       find (has_username name) (users d) = Some u →
       hashedPassword u = Some hash →
       bcrypt_compare password hash = true →
       response_status
         (AuthCtrl.login rt {| db := d; ctx := request (credentials name password) id st |})
       = 500).
Proof.
  pose proof (generateToken_cases rt u) as Htoken.
  split; [| split].
  - intros [Hs | Hs]; by rewrite Hs in Htoken.
  - intros token Hsigned.
    destruct (JWT_SECRET rt) as [[| a key] |]; [congruence | | congruence].
    exists (String a key). split; [done |]. split; [done |].
    rewrite Htoken in Hsigned. by injection Hsigned as <-.
  - intros * Hs Hup Hn Hp Hfind Hhash Hcmp.
    rewrite (login_lookup rt _ name password) by done.
    simpl. rewrite Hfind, Hhash, Hcmp.
    destruct Hs as [Hs | Hs]; rewrite Hs in Htoken; by rewrite Htoken.
Qed.

(** C4: a token issued at time [now] carries the user's id, the username, the
    time of issue and an expiry exactly 7 days later; verified with the
    signing secret it yields its claims at any time before [now + 7 days]
    and is [Expired] at any time after. *)
Theorem token_valid_seven_days (rt : Runtime) (u : User) (token : Token) (key : string) :
  generateToken rt u = Normal token →
  JWT_SECRET rt = Some key →
  jwt_id (payload token) = id u
  ∧ jwt_username (payload token) = username u
  ∧ iat (payload token) = now rt
  ∧ exp (payload token) = (iat (payload token) + 7 * 24 * 60 * 60)%Z
  ∧ ∀ clock : Z,
      ((clock < now rt + 7 * 24 * 60 * 60)%Z →
         TokenCodec.verify token key clock = TokenCodec.Claims (payload token))
      ∧ ((now rt + 7 * 24 * 60 * 60 < clock)%Z →
         TokenCodec.verify token key clock = TokenCodec.Expired).
Proof.
  intros Hissued Hkey.
  pose proof (generateToken_cases rt u) as Htoken.
  rewrite Hkey in Htoken.
  destruct key as [| a key]; [congruence |].
  rewrite Htoken in Hissued. injection Hissued as <-. simpl.
  repeat split; try done.
  - intros Hbefore. unfold TokenCodec.verify. simpl.
    rewrite String.eqb_refl. simpl.
    destruct (Z.ltb_spec (now rt + 604800) clock); [lia | done].
  - intros Hafter. unfold TokenCodec.verify. simpl.
    rewrite String.eqb_refl. simpl.
    destruct (Z.ltb_spec (now rt + 604800) clock); [done | lia].
Qed.
End Auth.

(** ** Deleting a post *)

Section Posts.
Context `{Libs}.
Import PostsCtrl.

Lemma remove_first_absent (f : Post → bool) (l : list Post) :
  find f l = None → remove_first f l = l.
Proof.
  induction l as [| p l IH]; [done |]. simpl.
  destruct (f p); [done |]. intros Hnone. by rewrite IH.
Qed.

(** The removal throws only on an id that cannot be cast or on a database
    that cannot be reached. *)
Lemma findByIdAndRemove_reachable (id : string) (oid : ObjectId) (w : World) :
  castObjectId id = Some oid →
  available (db w) = true →
  findByIdAndRemove id w =
    (Normal (find (has_id oid) (posts (db w))),
     {| db := {| available := true; users := users (db w);
                 posts := remove_first (has_id oid) (posts (db w)) |};
        ctx := ctx w |}).
Proof.
  intros Hcast Hup. unfold findByIdAndRemove. by rewrite Hcast, Hup.
Qed.

(** C10: whenever the removal behind [remove] does not throw, the answer is
    204, whether a post was removed or not; when no post has the given id,
    nothing was removed and the store is as it was. *)
Theorem remove_no_content (w w' : World) (removed : option Post) :
  findByIdAndRemove (params_id (ctx w)) w = (Normal removed, w') →
  remove w = (Normal tt, {| db := db w'; ctx := with_status 204 (ctx w) |})
  ∧ response_status (remove w) = 204
  ∧ ((∀ oid, castObjectId (params_id (ctx w)) = Some oid →
             find (has_id oid) (posts (db w)) = None) →
     removed = None ∧ db w' = db w).
Proof.
  intros Hremoved.
  assert (∃ oid, castObjectId (params_id (ctx w)) = Some oid
                 ∧ available (db w) = true) as (oid & Hcast & Hup).
  { unfold findByIdAndRemove in Hremoved.
    destruct (castObjectId _) as [oid |]; [| done].
    destruct (available (db w)); [| done]. by exists oid. }
  rewrite (findByIdAndRemove_reachable _ oid) in Hremoved by done.
  injection Hremoved as <- <-.
  assert (remove w
          = (Normal tt,
             {| db := {| available := true; users := users (db w);
                         posts := remove_first (has_id oid) (posts (db w)) |};
                ctx := with_status 204 (ctx w) |})) as Hrun.
  { unfold remove. unfold_async.
    by rewrite (findByIdAndRemove_reachable _ oid) by done. }
  rewrite Hrun. split; [done |]. split; [done |].
  intros Habsent. specialize (Habsent oid Hcast).
  split; [done |]. simpl.
  rewrite remove_first_absent by done.
  destruct (db w). simpl in Hup. by rewrite Hup.
Qed.
End Posts.

(** ** Registrations for one username *)

Section Racing.
Context `{Libs}.
Import UserModel Concurrent.

(** A client resumed twice in a row has run [register]. *)
Lemma step_twice_register (rt : Runtime) (c : Context) (d : Db) :
  let start := {| client_rt := rt; client_ctx := c; task := Start |} in
  let r := AuthCtrlEarlier.register rt {| db := d; ctx := c |} in
  step (step d start).1 (step d start).2
  = (db r.2, {| client_rt := rt; client_ctx := ctx r.2; task := Settled r.1 |}).
Proof.
  unfold step, register_check, register_insert, settle, AuthCtrlEarlier.register,
    findByUsername, setPassword, save.
  unfold_async. simpl.
  destruct (register_schema Joi (request_body c)) eqn:Hschema; simpl; [done |].
  destruct (register_schema_fields _ Hschema) as (name & password & -> & ->).
  rewrite findOne_string. simpl.
  destruct (available d) eqn:Hup; simpl; [| done].
  destruct (find _ _); simpl; [done |].
  rewrite Hup. by simpl.
Qed.

Lemma find_app_absent {A} (f : A → bool) (l l' : list A) :
  find f l = None → find f (l ++ l') = find f l'.
Proof.
  induction l as [| x l IH]; [done |]. simpl.
  by destruct (f x).
Qed.

Lemma filter_absent {A} (f : A → bool) (l : list A) :
  find f l = None → List.filter f l = [].
Proof.
  induction l as [| x l IH]; [done |]. simpl.
  by destruct (f x).
Qed.

(** Once the username is taken, every later request is answered 409 and the
    store stays as it is. *)
Lemma serve_all_taken (d : Db) (name : string) (u : User)
    (requests : list (Runtime * Context)) :
  available d = true →
  find (has_username name) (users d) = Some u →
  Forall (registers name) requests →
  serve_all d requests = (d, replicate (length requests) 409).
Proof.
  intros Hup Hfound Hall.
  induction Hall as [| [rt c] rest (Hvalid & Hname & _) _ IH]; [done |].
  simpl in *.
  rewrite (register_earlier_conflict rt {| db := d; ctx := c |} name u) by done.
  simpl. by rewrite IH.
Qed.

(** C2, as the code has it: when the registrations for a free username are
    served one after the other by the earlier handler, the first is answered
    200, each of the others 409, and the store ends with exactly one user of
    that name. *)
Theorem sequential_registrations_one_success (d : Db) (name : string)
    (first : Runtime * Context) (rest : list (Runtime * Context)) :
  available d = true →
  find (has_username name) (users d) = None →
  Forall (registers name) (first :: rest) →
  ∃ u, username u = name
    ∧ serve_all d (first :: rest)
      = (insert_user u d, 200 :: replicate (length rest) 409)
    ∧ length (List.filter (has_username name) (users (insert_user u d))) = 1.
Proof.
  intros Hup Hfree Hall.
  apply Forall_cons in Hall as [(Hvalid & Hname & Hstatus) Hrest].
  destruct first as [rt c]. simpl in *.
  destruct (register_schema_fields _ Hvalid) as (name' & password & Hname' & Hpw).
  assert (name' = name) as -> by congruence.
  exists (registered rt name password).
  assert (has_username name (registered rt name password) = true) as Hhas.
  { apply String.eqb_refl. }
  split; [done |]. split.
  - rewrite (register_earlier_fresh rt {| db := d; ctx := c |} name password) by done.
    simpl.
    rewrite (serve_all_taken _ name (registered rt name password)); [| done | | done].
    + unfold response_status, status_of. simpl. by rewrite Hstatus.
    + simpl. rewrite find_app_absent by done. simpl. by rewrite Hhas.
  - simpl. rewrite List.filter_app, filter_absent by done. simpl. by rewrite Hhas.
Qed.
End Racing.

(** * Examples *)

(** C1, instance: alice is let through to her own post. *)
Lemma checkOwnPost_authenticated_witness :
  PostsCtrl.checkOwnPost skip (Sample.alice_post_world (Some Sample.alice_identity))
  = skip (Sample.alice_post_world (Some Sample.alice_identity)).
Proof.
  apply (checkOwnPost_authenticated skip
           (Sample.alice_post_world (Some Sample.alice_identity))
           Sample.alice_post
           {| owner_id := IdObject {| toHexString := "64b000000000000000000001" |};
              owner_username := "alice" |}
           Sample.alice_identity "64b000000000000000000001");
    reflexivity.
Defined.

(** C1, counterexample: an anonymous request for bob's post is not answered
    403; reading the id of the missing identity throws, and Koa answers 500. *)
Lemma checkOwnPost_anonymous_not_forbidden :
  PostsCtrl.checkOwnPost skip (Sample.bob_post_world None)
    ≠ set_status 403 (Sample.bob_post_world None)
  ∧ response_status (PostsCtrl.checkOwnPost skip (Sample.bob_post_world None)) = 500.
Proof.
  split; [discriminate | reflexivity].
Qed.

(** C2, instance: three registrations of alice in a row on an empty store. *)
Lemma sequential_registrations_one_success_witness :
  ∃ u, username u = "alice"
    ∧ @Concurrent.serve_all Sample.libs Sample.empty_db
        [Sample.alice_request "64b000000000000000000001";
         Sample.alice_request "64b000000000000000000002";
         Sample.alice_request "64b000000000000000000003"]
      = (insert_user u Sample.empty_db, [200; 409; 409])
    ∧ length (List.filter (UserModel.has_username "alice")
                (users (insert_user u Sample.empty_db))) = 1.
Proof.
  apply (@sequential_registrations_one_success Sample.libs Sample.empty_db "alice"
           (Sample.alice_request "64b000000000000000000001")
           [Sample.alice_request "64b000000000000000000002";
            Sample.alice_request "64b000000000000000000003"]).
  - reflexivity.
  - reflexivity.
  - repeat constructor.
Defined.

(** C2, counterexample: two registrations of alice whose lookups both run
    before either insert are both answered 200, and the store ends with two
    users named alice. *)
Lemma concurrent_registrations_both_succeed :
  map Concurrent.answer
      (Concurrent.clients (@Concurrent.run Sample.libs [0; 1; 0; 1] Sample.two_clients))
    = [Some 200; Some 200]
  ∧ map username
      (users (Concurrent.shared (@Concurrent.run Sample.libs [0; 1; 0; 1] Sample.two_clients)))
    = ["alice"; "alice"].
Proof. vm_compute. done. Qed.

(** C4, instance: alice's token, an hour after it was issued. *)
Lemma token_valid_seven_days_witness :
  @TokenCodec.verify Sample.libs Sample.alice_token "secret" 1700003600
  = TokenCodec.Claims (payload Sample.alice_token).
Proof.
  destruct (@token_valid_seven_days Sample.libs
              (Sample.runtime (Some "secret") "") Sample.alice Sample.alice_token "secret"
              eq_refl eq_refl) as (_ & _ & _ & _ & Hverify).
  apply Hverify. reflexivity.
Defined.

(** C5, instance: mallory, who is unknown, and alice with a wrong password. *)
Lemma login_failures_indistinguishable_witness :
  response (@AuthCtrl.login Sample.libs (Sample.runtime (Some "secret") "")
              (Sample.login_as "mallory" "pw123456"))
  = response (@AuthCtrl.login Sample.libs (Sample.runtime (Some "secret") "")
                (Sample.login_as "alice" "wrong")).
Proof.
  destruct (@login_failures_indistinguishable Sample.libs
              (Sample.runtime (Some "secret") "") (Sample.runtime (Some "secret") "")
              Sample.alice_db "" "" anonymous anonymous
              (credentials "mallory" "pw123456") (credentials "alice" "wrong")
              (JString "mallory") (JString "alice") Sample.alice "$2b$10$pw123456"
              eq_refl eq_refl eq_refl eq_refl eq_refl) as [Hsame _].
  apply (Hsame "wrong"); reflexivity.
Defined.

(** C5, counterexample: with the number 1 for a password, mallory, who is
    unknown, is answered 401 and alice, who is known, 500 -- by either login
    handler: the answers tell whether the username exists. *)
Lemma login_number_password_tells_known :
  response (@AuthCtrl.login Sample.libs (Sample.runtime (Some "secret") "")
              (Sample.login_with (Sample.number_password "mallory")))
    = (401, None, [])
  ∧ response (@AuthCtrl.login Sample.libs (Sample.runtime (Some "secret") "")
                (Sample.login_with (Sample.number_password "alice")))
    = (500, None, [])
  ∧ response (@AuthCtrlEarlier.login Sample.libs (Sample.runtime (Some "secret") "")
                (Sample.login_with (Sample.number_password "mallory")))
    = (401, None, [])
  ∧ response (@AuthCtrlEarlier.login Sample.libs (Sample.runtime (Some "secret") "")
                (Sample.login_with (Sample.number_password "alice")))
    = (500, None, []).
Proof. vm_compute. done. Qed.

(** C6, instance: the body of alice's login. *)
Lemma no_password_hash_returned_witness :
  @UserModel.serialize Sample.alice !! "hashedPassword" = None.
Proof.
  apply (@no_password_hash_returned Sample.libs (Sample.runtime (Some "secret") "")
           Sample.alice_db (credentials "alice" "pw123456") "" anonymous).
  right; right; left. vm_compute. reflexivity.
Defined.

(** C8, instance: no token for alice while the secret is absent. *)
Lemma generateToken_secret_at_call_witness :
  @UserModel.generateToken Sample.libs (Sample.runtime None "") Sample.alice
  = Throw (JwtError "secretOrPrivateKey must have a value").
Proof.
  apply (@generateToken_secret_at_call Sample.libs (Sample.runtime None "") Sample.alice).
  by left.
Defined.

(** C8, counterexample: a process without a secret serves alice's login -- it
    finds her, verifies her password, prepares the body -- and fails only
    when the token is to be signed; with the secret set, the same request is
    answered 200. *)
Lemma login_without_secret_is_served :
  fst (@AuthCtrl.login Sample.libs (Sample.runtime None "") (Sample.login_as "alice" "pw123456"))
    = Throw (HttpError 500 (JwtError "secretOrPrivateKey must have a value"))
  ∧ returned (@AuthCtrl.login Sample.libs (Sample.runtime None "")
                (Sample.login_as "alice" "pw123456"))
    = Some (UserModel.serialize Sample.alice)
  ∧ response_status (@AuthCtrl.login Sample.libs (Sample.runtime (Some "secret") "")
                       (Sample.login_as "alice" "pw123456")) = 200.
Proof. vm_compute. done. Qed.

(** C9, instance: alice with a wrong password. *)
Lemma login_unauthorized_iff_witness :
  response_status (@AuthCtrl.login Sample.libs (Sample.runtime (Some "secret") "")
                     (Sample.login_as "alice" "wrong")) = 401.
Proof.
  apply (@login_unauthorized_iff Sample.libs (Sample.runtime (Some "secret") "")
           Sample.alice_db (credentials "alice" "wrong") "" anonymous).
  right; right. exists (JString "alice"). split; [reflexivity |].
  right. exists Sample.alice, "$2b$10$pw123456", "wrong".
  repeat split; reflexivity.
Defined.

(** C9, counterexample: alice's credentials do not fail, and yet her login
    does not succeed in a process without a signing secret: it is answered
    500.  Nor is 401 the answer when her password is the number 1, which does
    not verify: [bcrypt.compare] rejects it, and the answer is 500. *)
Lemma login_neither_unauthorized_nor_served :
  ¬ @credentials_fail Sample.libs Sample.alice_db (credentials "alice" "pw123456")
  ∧ response_status (@AuthCtrl.login Sample.libs (Sample.runtime None "")
                       (Sample.login_as "alice" "pw123456")) = 500
  ∧ response_status (@AuthCtrl.login Sample.libs (Sample.runtime (Some "secret") "")
                       (Sample.login_with (Sample.number_password "alice"))) = 500.
Proof.
  split; [| split; reflexivity].
  intros [[Hm | (v & [= <-] & Hf)] | [[Hm | (v & [= <-] & Hf)] | (v & [= <-] & Hbad)]];
    try discriminate.
  destruct Hbad as [Hnone | (u & hash & password & Hu & Hhash & [= <-] & Hcmp)].
  - vm_compute in Hnone. discriminate.
  - vm_compute in Hu. injection Hu as <-.
    vm_compute in Hhash. injection Hhash as <-.
    vm_compute in Hcmp. discriminate.
Qed.

(** C10, instance: deleting a post that does not exist. *)
Lemma remove_no_content_witness :
  response_status (@PostsCtrl.remove Sample.libs
                     (Sample.delete_request "64b0000000000000000000ff")) = 204
  ∧ db (snd (@PostsCtrl.remove Sample.libs
               (Sample.delete_request "64b0000000000000000000ff")))
    = db (Sample.delete_request "64b0000000000000000000ff").
Proof.
  destruct (@remove_no_content Sample.libs
              (Sample.delete_request "64b0000000000000000000ff")
              (Sample.delete_request "64b0000000000000000000ff") None eq_refl)
    as (Hrun & Hstatus & Hkept).
  split; [exact Hstatus |].
  rewrite Hrun. simpl. apply Hkept.
  intros oid [= <-]. reflexivity.
Defined.

(** * Further properties *)

Ltac unfold_posts :=
  unfold mbind, mret, PostsAsync_bind, PostsAsync_ret, Async_bind, Async_ret,
    posts_try_catch, posts_throw, within, get_exchange, send, set_state_post,
    set_last_page, modify_ctx, set_status in *.

(** ** Registration, login and serialization *)

Section MoreAuth.
Context `{Libs}.
Import UserModel.

Lemma register_schema_accepts (b : RequestBody) :
  register_schema Joi b = None ↔ acceptable_registration b.
Proof.
  unfold register_schema, acceptable_registration. split.
  - destruct (body_username b) as [[| | | name | |] |]; try done.
    destruct (alphanum name) eqn:Halpha; [| done].
    destruct (3 <=? String.length name) eqn:Hmin; [| done].
    destruct (String.length name <=? 20) eqn:Hmax; [| done]. simpl.
    destruct (body_password b) as [[| | | [| a password] | |] |]; try done.
    destruct (body_others b); [| done].
    intros _. exists name, (String a password).
    apply Nat.leb_le in Hmin, Hmax. done.
  - intros (name & password & -> & -> & -> & [Hmin Hmax] & Hpw & ->).
    apply Nat.leb_le in Hmin, Hmax. rewrite Hmin, Hmax. simpl.
    by destruct password.
Qed.

Lemma register_earlier_unreachable (rt : Runtime) (w : World) :
  register_schema Joi (request_body (ctx w)) = None →
  available (db w) = false →
  AuthCtrlEarlier.register rt w = (Throw (HttpError 500 MongoError), w).
Proof.
  intros Hvalid Hdown.
  destruct (register_schema_fields _ Hvalid) as (name & password & Hname & Hpw).
  unfold AuthCtrlEarlier.register, findByUsername. unfold_async.
  by rewrite Hvalid, Hname, Hpw, findOne_string, Hdown.
Qed.

Lemma register_earlier_invalid (rt : Runtime) (w : World) (error : ValidationError) :
  register_schema Joi (request_body (ctx w)) = Some error →
  AuthCtrlEarlier.register rt w =
    (Normal tt, {| db := db w; ctx := with_body (ErrorBody error) (with_status 400 (ctx w)) |}).
Proof.
  intros Hinvalid. unfold AuthCtrlEarlier.register. unfold_async.
  by rewrite Hinvalid.
Qed.

(** X1: the earlier [register] answers 400 exactly when the body is not
    made of a username, a string of 3 to 20 alphanumeric characters, and a
    password, a string that is not empty, and of nothing else; it then stores
    nothing and answers with the validation error. *)
Theorem register_bad_request_iff (rt : Runtime) (d : Db) (b : RequestBody)
    (id : string) (st : State) :
  let r := AuthCtrlEarlier.register rt {| db := d; ctx := request b id st |} in
  (response_status r = 400 ↔ ¬ acceptable_registration b)
  ∧ (response_status r = 400 →
     db r.2 = d ∧ ∃ error, body (ctx r.2) = Some (ErrorBody error)).
Proof.
  intros r. subst r. rewrite <- register_schema_accepts.
  unfold AuthCtrlEarlier.register, findByUsername, setPassword, save.
  unfold_async. simpl.
  destruct (register_schema Joi b) as [error |] eqn:Hschema; simpl.
  { split; [done |]. intros _. split; [done |]. by exists error. }
  destruct (register_schema_fields _ Hschema) as (name & password & -> & ->).
  rewrite findOne_string. simpl.
  destruct (available d) eqn:Hup; simpl.
  2:{ split; [split; [done | intros Hn; by destruct Hn] | done]. }
  destruct (find _ _); simpl.
  { split; [split; [done | intros Hn; by destruct Hn] | done]. }
  rewrite Hup. simpl.
  split; [split; [done | intros Hn; by destruct Hn] | done].
Qed.

(** X2: the earlier [register] either leaves the store as it was or appends
    exactly one user to it: one with the requested username, which was free,
    the id of the new document and the bcrypt hash, at cost 10, of the
    password; the users and posts already stored are kept. *)
Theorem register_appends_one_user (rt : Runtime) (w : World) :
  db (AuthCtrlEarlier.register rt w).2 = db w
  ∨ ∃ name password,
      body_username (request_body (ctx w)) = Some (JString name) ∧
      body_password (request_body (ctx w)) = Some (JString password) ∧
      find (has_username name) (users (db w)) = None ∧
      (AuthCtrlEarlier.register rt w).1 = Normal tt ∧
      users (db (AuthCtrlEarlier.register rt w).2)
        = users (db w) ++ [{| _id := new_id rt; username := name;
                              hashedPassword := Some (bcrypt_hash password 10 (salt rt)) |}] ∧
      posts (db (AuthCtrlEarlier.register rt w).2) = posts (db w).
Proof.
  destruct (register_schema Joi (request_body (ctx w))) as [error |] eqn:Hschema.
  { left. by rewrite (register_earlier_invalid rt w error). }
  destruct (available (db w)) eqn:Hup.
  2:{ left. by rewrite register_earlier_unreachable. }
  destruct (register_schema_fields _ Hschema) as (name & password & Hname & Hpw).
  destruct (find (has_username name) (users (db w))) as [u |] eqn:Hfind.
  { left. by rewrite (register_earlier_conflict rt w name u). }
  right. exists name, password.
  by rewrite (register_earlier_fresh rt w name password).
Qed.

Lemma find_last_absent {A} (f : A → bool) (l : list A) (x : A) :
  find f l = None → f x = true → find f (l ++ [x]) = Some x.
Proof.
  intros Hnone Hx. induction l as [| y l IH]; simpl in *.
  - by rewrite Hx.
  - destruct (f y); [done | by apply IH].
Qed.

(** X3: after the earlier [register] has stored a user, a login with the same
    username and password is answered 200 with that user, serialized, by
    either login handler -- provided bcrypt verifies a password against its
    own hash and the signing secret is set. *)
Theorem register_then_login (rt rt' : Runtime) (d : Db) (name password : string)
    (id id' : string) (st st' : State) (key : string) :
  available d = true →
  register_schema Joi (credentials name password) = None →
  find (has_username name) (users d) = None →
  bcrypt_compare password (bcrypt_hash password 10 (salt rt)) = true →
  JWT_SECRET rt' = Some key → key ≠ "" →
  let registered_in :=
    db (AuthCtrlEarlier.register rt
          {| db := d; ctx := request (credentials name password) id st |}).2 in
  let again := {| db := registered_in; ctx := request (credentials name password) id' st' |} in
  response_status (AuthCtrl.login rt' again) = 200
  ∧ returned (AuthCtrl.login rt' again) = Some (serialize (registered rt name password))
  ∧ response_status (AuthCtrlEarlier.login rt' again) = 200
  ∧ returned (AuthCtrlEarlier.login rt' again)
    = Some (serialize (registered rt name password)).
Proof.
  intros Hup Hvalid Hfree Hbcrypt Hkey Hnonempty registered_in again.
  subst again registered_in.
  rewrite (register_earlier_fresh rt _ name password) by done. simpl db.
  apply register_schema_accepts in Hvalid
    as (name' & password' & [= <-] & [= <-] & _ & [Hmin _] & Hpw & _).
  assert (name ≠ "") as Hname by (intros ->; simpl in Hmin; lia).
  set (u := registered rt name password).
  assert (find (has_username name) (users (insert_user u d)) = Some u) as Hfound.
  { simpl. apply find_last_absent; [done |]. apply String.eqb_refl. }
  rewrite (login_lookup rt' _ name password) by done.
  rewrite (login_earlier_lookup rt' _ name password) by done.
  simpl db. rewrite Hfound.
  pose proof (generateToken_cases rt' u) as Htoken. rewrite Hkey in Htoken.
  destruct key as [| a key]; [done |]. rewrite Htoken.
  subst u. cbn [hashedPassword registered]. rewrite Hbcrypt. done.
Qed.

(** X4: [login] (both handlers), [check], [logout] and the later [register]
    never write to the store, whatever the request and however they end. *)
Theorem auth_handlers_read_only (rt : Runtime) (w : World) :
  db (AuthCtrl.login rt w).2 = db w
  ∧ db (AuthCtrlEarlier.login rt w).2 = db w
  ∧ db (AuthCtrl.check w).2 = db w
  ∧ db (AuthCtrl.logout w).2 = db w
  ∧ db (AuthCtrl.register rt w).2 = db w.
Proof.
  split; [| split; [| split; [| split]]].
  - unfold AuthCtrl.login, findByUsername, findOne, checkPassword. unfold_async.
    repeat (case_match; simplify_eq/=); done.
  - unfold AuthCtrlEarlier.login, findByUsername, findOne, checkPassword. unfold_async.
    repeat (case_match; simplify_eq/=); done.
  - unfold AuthCtrl.check. unfold_async. by case_match.
  - done.
  - done.
Qed.

(** X5: a login whose password verifies, with the signing secret set, is
    answered 200 with the serialized user and exactly one cookie:
    [access_token], not readable by scripts, holding a token signed with the
    secret whose claims carry the user's id and username, and with a maximum
    age, in milliseconds, equal to the token's lifetime. *)
Theorem login_issues_cookie (rt : Runtime) (d : Db) (id : string) (st : State)
    (name password : string) (u : User) (hash key : string) :
  available d = true →
  name ≠ "" → password ≠ "" →
  find (has_username name) (users d) = Some u →
  hashedPassword u = Some hash →
  bcrypt_compare password hash = true →
  JWT_SECRET rt = Some key → key ≠ "" →
  ∃ token,
    generateToken rt u = Normal token
    ∧ response (AuthCtrl.login rt
                  {| db := d; ctx := request (credentials name password) id st |})
      = (200, Some (JsonBody (serialize u)),
         [{| cookie_name := "access_token"; cookie_value := Some token;
             maxAge := Some (1000 * (exp (payload token) - iat (payload token)))%Z;
             httpOnly := true |}])
    ∧ jwt_id (payload token) = UserModel.id u
    ∧ jwt_username (payload token) = username u
    ∧ signature token = hmac_sign key (payload token).
Proof.
  intros Hup Hname Hpw Hfind Hhash Hcmp Hkey Hnonempty.
  pose proof (generateToken_cases rt u) as Htoken. rewrite Hkey in Htoken.
  destruct key as [| a key]; [done |].
  eexists. split; [exact Htoken |].
  rewrite (login_lookup rt _ name password) by done.
  simpl db. rewrite Hfind, Hhash, Hcmp, Htoken. simpl.
  repeat split; try done.
  unfold response, response_status, access_token, cookie_maxAge. simpl.
  do 4 f_equal. lia.
Qed.

(** X6: [serialize] removes [hashedPassword] and nothing else: every other
    field of [toJSON()] is returned as it is, the username and the id among
    them, while [toJSON()] itself carries the hash when there is one. *)
Theorem serialize_keeps_other_fields (u : User) :
  (∀ key, key ≠ "hashedPassword" → serialize u !! key = toJSON u !! key)
  ∧ serialize u !! "username" = Some (VString (username u))
  ∧ serialize u !! "_id" = Some (VObjectId (_id u))
  ∧ (toJSON u !! "hashedPassword" = VString <$> hashedPassword u).
Proof.
  unfold serialize.
  split; [intros key Hkey; by apply lookup_delete_ne |].
  rewrite !lookup_delete_ne by done.
  unfold toJSON. destruct (hashedPassword u) as [hash |]; simpl.
  - rewrite lookup_insert_eq. rewrite !lookup_insert_ne by done.
    by rewrite !lookup_insert_eq, !lookup_insert_ne, lookup_insert_eq by done.
  - by rewrite !lookup_insert_eq, !lookup_insert_ne, lookup_insert_eq by done.
Qed.
End MoreAuth.

(** ** Loading a post, and deleting it *)

Section Guards.
Context `{Libs}.
Context `{PostsLibs}.
Import PostModel.

Lemma with_world_same (x : Exchange) : with_world (world x) x = x.
Proof. by destruct x. Qed.

Lemma find_some_elem {A} (f : A → bool) (l : list A) (a : A) :
  find f l = Some a → a ∈ l ∧ f a = true.
Proof.
  intros Hfind. apply find_some in Hfind as [Hin Hf].
  split; [by apply list_elem_of_In | done].
Qed.

Lemma has_id_true (oid : ObjectId) (p : Post) :
  PostsCtrl.has_id oid p = true ↔ post_id p = oid.
Proof. unfold PostsCtrl.has_id. apply bool_decide_eq_true. Qed.

(** [getPostById], case by case. *)
Lemma getPostById_cases (next : PostsAsync unit) (x : Exchange) :
  PostsHandlers.getPostById next x =
    if negb (ObjectId_isValid (params_id (ctx (world x))))
    then within (set_status 400) x
    else
      match castObjectId (params_id (ctx (world x))) with
      | None => (Throw (HttpError 500 (CastError (params_id (ctx (world x))))), x)
      | Some oid =>
          if available (db (world x))
          then
            match find (PostsCtrl.has_id oid) (posts (db (world x))) with
            | None => within (set_status 404) x
            | Some p => next (with_loaded_post p x)
            end
          else (Throw (HttpError 500 MongoError), x)
      end.
Proof.
  unfold PostsHandlers.getPostById, findById, with_loaded_post. unfold_posts.
  destruct (negb _); [done |].
  destruct (castObjectId _) as [oid |]; [| by rewrite with_world_same].
  destruct (available _); [| by rewrite with_world_same].
  rewrite with_world_same.
  by destruct (find _ _).
Qed.

(** X7: [getPostById] ends in exactly one of four ways, decided by the id
    and the store.  It answers 400 for an id that is not valid; it throws a
    500 when the lookup throws -- the id cannot be cast, or the database
    cannot be reached; it answers 404 when no post has the id; the next
    handler is not run in these.  When a post has the id, it runs the next
    handler with that stored post in [ctx.state.post], and the result of the
    next handler is its own: what that throws is not turned into a 500. *)
Theorem getPostById_loads_requested_post (next : PostsAsync unit) (x : Exchange) :
  let id := params_id (ctx (world x)) in
  let r := PostsHandlers.getPostById next x in
  (ObjectId_isValid id = false → r = within (set_status 400) x)
  ∧ (ObjectId_isValid id = true → castObjectId id = None →
     r = (Throw (HttpError 500 (CastError id)), x))
  ∧ (∀ oid,
       ObjectId_isValid id = true → castObjectId id = Some oid →
       (available (db (world x)) = false →
          r = (Throw (HttpError 500 MongoError), x))
       ∧ (available (db (world x)) = true →
          find (PostsCtrl.has_id oid) (posts (db (world x))) = None →
          r = within (set_status 404) x)
       ∧ (∀ p,
            available (db (world x)) = true →
            find (PostsCtrl.has_id oid) (posts (db (world x))) = Some p →
            p ∈ posts (db (world x))
            ∧ post_id p = oid
            ∧ state_post (state (ctx (world (with_loaded_post p x)))) = Some p
            ∧ r = next (with_loaded_post p x))).
Proof.
  intros id r. subst id r. rewrite getPostById_cases.
  split; [by intros -> |].
  split; [by intros -> -> |].
  intros oid -> ->. simpl.
  split; [by intros -> |].
  split; [by intros -> -> |].
  intros p -> Hfind. rewrite Hfind.
  apply find_some_elem in Hfind as [Hin Hid]. by apply has_id_true in Hid.
Qed.

Lemma remove_cases (w : World) :
  PostsCtrl.remove w =
    match castObjectId (params_id (ctx w)) with
    | None => (Throw (HttpError 500 (CastError (params_id (ctx w)))), w)
    | Some oid =>
        if available (db w)
        then (Normal tt,
              {| db := {| available := true; users := users (db w);
                          posts := PostsCtrl.remove_first (PostsCtrl.has_id oid)
                                     (posts (db w)) |};
                 ctx := with_status 204 (ctx w) |})
        else (Throw (HttpError 500 MongoError), w)
    end.
Proof.
  unfold PostsCtrl.remove, PostsCtrl.findByIdAndRemove. unfold_async.
  destruct (castObjectId _); [| done].
  by destruct (available _).
Qed.

Lemma strict_neq_false (s : string) (v : IdValue) :
  strict_neq s v = false → v = IdString s.
Proof.
  destruct v as [t | oid]; [| done].
  intros Heq. apply strict_neq_string in Heq. by subst.
Qed.

(** X8: when [getPostById], [checkOwnPost] and [remove] run one after the
    other, the posts of the store change only if the requester is
    authenticated with, as id, the owner id (as a string) of the stored post
    that has the requested id; that post, and no other, is then removed and
    the answer is 204. *)
Theorem only_owner_deletes (x : Exchange) :
  let chain :=
    PostsHandlers.getPostById (within (PostsCtrl.checkOwnPost PostsCtrl.remove)) in
  posts (db (world (chain x).2)) ≠ posts (db (world x)) →
  ∃ p owner who,
    p ∈ posts (db (world x))
    ∧ castObjectId (params_id (ctx (world x))) = Some (post_id p)
    ∧ user p = Some owner
    ∧ state_user (state (ctx (world x))) = Some who
    ∧ identity_id who = IdString (toString (owner_id owner))
    ∧ posts (db (world (chain x).2))
      = PostsCtrl.remove_first (PostsCtrl.has_id (post_id p)) (posts (db (world x)))
    ∧ posts_status (chain x) = 204.
Proof.
  intros chain. subst chain. rewrite getPostById_cases.
  destruct (negb _); [done |].
  destruct (castObjectId (params_id (ctx (world x)))) as [oid |] eqn:Hcast; [| done].
  destruct (available (db (world x))) eqn:Hup; [| done].
  destruct (find _ _) as [p |] eqn:Hfind; [| done].
  apply find_some_elem in Hfind as [Hin Hp]. apply has_id_true in Hp. subst oid.
  remember (within (PostsCtrl.checkOwnPost PostsCtrl.remove) (with_loaded_post p x))
    as r eqn:Hr.
  unfold within in Hr.
  set (w := world (with_loaded_post p x)) in *.
  assert (db w = db (world x)) as Hdb by done.
  assert (params_id (ctx w) = params_id (ctx (world x))) as Hid by done.
  assert (state_user (state (ctx w)) = state_user (state (ctx (world x)))) as Hwho by done.
  assert (state_post (state (ctx w)) = Some p) as Hpost by done.
  destruct (user p) as [owner |] eqn:Howner.
  2:{ unfold PostsCtrl.checkOwnPost in Hr. unfold_async.
      rewrite Hpost, Howner in Hr. by subst r. }
  destruct (state_user (state (ctx w))) as [who |] eqn:Hsome.
  2:{ unfold PostsCtrl.checkOwnPost in Hr. unfold_async.
      rewrite Hpost, Howner, Hsome in Hr. by subst r. }
  rewrite (checkOwnPost_reads PostsCtrl.remove w p owner who) in Hr by done.
  destruct (strict_neq _ _) eqn:Hneq; [by subst r |].
  apply strict_neq_false in Hneq.
  rewrite remove_cases, Hid, Hcast, Hdb, Hup in Hr.
  subst r. simpl. intros _. exists p, owner, who. by rewrite <- Hwho.
Qed.
End Guards.

(** ** Writing, reading and updating posts *)

Section Crud.
Context `{Libs}.
Context `{PostsLibs}.
Import PostModel.

Lemma joi_string_required (path : string) (f : Field string) :
  joi_string true path f = None ↔ ∃ s, f = Given s ∧ s ≠ "".
Proof.
  destruct f as [| | [| a s]]; simpl; split; try done.
  - by intros (s & ? & ?).
  - by intros (s & ? & ?).
  - intros (s & [= <-] & Hs). done.
  - intros _. by eexists.
Qed.

Lemma joi_string_optional (path : string) (f : Field string) :
  joi_string false path f = None ↔ f = Absent ∨ ∃ s, f = Given s ∧ s ≠ "".
Proof.
  destruct f as [| | [| a s]]; simpl.
  - split; [by left | done].
  - split; [done | by intros [? | (s & ? & ?)]].
  - split; [done |]. by intros [? | (s & [= <-] & ?)].
  - split; [| done]. intros _. right. by eexists.
Qed.

Lemma all_nonempty (l : list string) :
  forallb (λ s, negb (String.eqb s "")) l = true ↔ Forall (λ s, s ≠ "") l.
Proof.
  rewrite forallb_forall, Forall_forall. split; intros Hall s Hin.
  - apply list_elem_of_In, Hall in Hin. apply negb_true_iff, String.eqb_neq in Hin. done.
  - apply list_elem_of_In, Hall in Hin. by apply negb_true_iff, String.eqb_neq.
Qed.

Lemma joi_strings_required (path : string) (f : Field (list string)) :
  joi_strings true path f = None ↔ ∃ l, f = Given l ∧ Forall (λ s, s ≠ "") l.
Proof.
  destruct f as [| | l]; simpl.
  - split; [done | by intros (l & ? & ?)].
  - split; [done | by intros (l & ? & ?)].
  - destruct (forallb _ l) eqn:Hall.
    + apply all_nonempty in Hall. split; [intros _; by exists l | done].
    + split; [done |]. intros (l' & [= <-] & Hl). apply all_nonempty in Hl. congruence.
Qed.

Lemma joi_strings_optional (path : string) (f : Field (list string)) :
  joi_strings false path f = None ↔
  f = Absent ∨ ∃ l, f = Given l ∧ Forall (λ s, s ≠ "") l.
Proof.
  destruct f as [| | l]; simpl.
  - split; [by left | done].
  - split; [done | by intros [? | (l & ? & ?)]].
  - destruct (forallb _ l) eqn:Hall.
    + apply all_nonempty in Hall. split; [intros _; right; by exists l | done].
    + split; [done |]. intros [? | (l' & [= <-] & Hl)]; [done |].
      apply all_nonempty in Hl. congruence.
Qed.

Lemma write_schema_accepts (i : PostInput) :
  write_schema Joi i = None ↔ well_formed_post i.
Proof.
  unfold write_schema, well_formed_post. simpl. split.
  - destruct (joi_string true "title" _) eqn:Ht; [done |].
    destruct (joi_string true "body" _) eqn:Hb; [done |].
    destruct (joi_strings true "tags" _) eqn:Hl; [done |].
    apply joi_string_required in Ht as (t & ? & ?), Hb as (b & ? & ?).
    apply joi_strings_required in Hl as (l & ? & ?).
    destruct (in_others i); [| done]. intros _. by exists t, b, l.
  - intros (t & b & l & Ht & Hne & Hb & Hbe & Hl & Hall & ->).
    assert (joi_string true "title" (in_title i) = None) as ->
      by (apply joi_string_required; eauto).
    assert (joi_string true "body" (in_body i) = None) as ->
      by (apply joi_string_required; eauto).
    assert (joi_strings true "tags" (in_tags i) = None) as ->
      by (apply joi_strings_required; eauto).
    done.
Qed.

Lemma update_schema_accepts (i : PostInput) :
  update_schema Joi i = None ↔ acceptable_update i.
Proof.
  unfold update_schema, acceptable_update. simpl.
  rewrite <- (joi_string_optional "title"), <- (joi_string_optional "body"),
    <- (joi_strings_optional "tags").
  destruct (joi_string false "title" _); [by split; [| intros (? & _)] |].
  destruct (joi_string false "body" _); [by split; [| intros (_ & ? & _)] |].
  destruct (joi_strings false "tags" _); [by split; [| intros (_ & _ & ? & _)] |].
  destruct (in_others i); [done |]. by split; [| intros (_ & _ & _ & ?)].
Qed.

(** The earlier [write], case by case. *)
Lemma write_earlier_cases (rt : Runtime) (x : Exchange) :
  PostsHandlersEarlier.write rt x =
    match write_schema Joi (input x) with
    | Some error => (within (set_status 400);; send (Rejected error)) x
    | None =>
        match in_title (input x), in_body (input x), in_tags (input x) with
        | Given t, Given b, Given l =>
            let post := PostsHandlersEarlier.new_Post rt t b l in
            if available (db (world x))
            then (Normal tt,
                  {| world := {| db := {| available := true; users := users (db (world x));
                                          posts := posts (db (world x)) ++ [post] |};
                                 ctx := ctx (world x) |};
                     input := input x; query := query x; sent := Some (OnePost post);
                     last_page := last_page x |})
            else (Throw (HttpError 500 MongoError), x)
        | _, _, _ => (Throw (TypeError "title, body or tags is undefined"), x)
        end
    end.
Proof.
  unfold PostsHandlersEarlier.write, save. unfold_posts.
  destruct (write_schema Joi (input x)); [done |].
  destruct (in_title (input x)), (in_body (input x)), (in_tags (input x)); try done.
  destruct (available _); [done |]. by rewrite with_world_same.
Qed.

Lemma write_earlier_valid (rt : Runtime) (x : Exchange) :
  well_formed_post (input x) →
  available (db (world x)) = true →
  ∃ p,
    PostsHandlersEarlier.write rt x
      = (Normal tt,
         {| world := {| db := {| available := true; users := users (db (world x));
                                 posts := posts (db (world x)) ++ [p] |};
                        ctx := ctx (world x) |};
            input := input x; query := query x; sent := Some (OnePost p);
            last_page := last_page x |})
    ∧ post_id p = new_id rt
    ∧ in_title (input x) = Given (title p)
    ∧ in_body (input x) = Given (post_body p)
    ∧ in_tags (input x) = Given (tags p)
    ∧ user p = None.
Proof.
  intros Hwf Hup. rewrite write_earlier_cases.
  pose proof Hwf as (t & b & l & Ht & _ & Hb & _ & Hl & _).
  apply write_schema_accepts in Hwf. rewrite Hwf, Ht, Hb, Hl, Hup.
  by eexists.
Qed.

(** X9: the earlier [write] answers 400 exactly when the body is not a title
    and a body that are not empty with tags that are not empty strings and no
    other key; it then stores nothing and answers with the validation
    error. *)
Theorem write_bad_request_iff (rt : Runtime) (d : Db) (id : string) (st : State)
    (i : PostInput) (q : Query) :
  let r := PostsHandlersEarlier.write rt (posts_request d id st i q) in
  (posts_status r = 400 ↔ ¬ well_formed_post i)
  ∧ (posts_status r = 400 →
     db (world r.2) = d ∧ ∃ error, sent r.2 = Some (Rejected error)).
Proof.
  intros r. subst r. rewrite write_earlier_cases. simpl input.
  rewrite <- write_schema_accepts.
  destruct (write_schema Joi i) as [error |] eqn:Hschema.
  { split; [done |]. intros _. split; [done |]. by exists error. }
  apply write_schema_accepts in Hschema as (t & b & l & -> & _ & -> & _ & -> & _).
  simpl. destruct (available d);
    (split; [split; [done | intros Hn; by destruct Hn] | done]).
Qed.

(** X10: for a well-formed body and a reachable database the earlier [write]
    appends exactly one post to the store, after those already there: it has
    the id of the new document, the title, body and tags of the request and
    no owner, and it is the body of the answer. *)
Theorem write_appends_post (rt : Runtime) (x : Exchange) :
  well_formed_post (input x) →
  available (db (world x)) = true →
  ∃ p,
    (PostsHandlersEarlier.write rt x).1 = Normal tt
    ∧ posts (db (world (PostsHandlersEarlier.write rt x).2))
      = posts (db (world x)) ++ [p]
    ∧ users (db (world (PostsHandlersEarlier.write rt x).2)) = users (db (world x))
    ∧ sent (PostsHandlersEarlier.write rt x).2 = Some (OnePost p)
    ∧ post_id p = new_id rt
    ∧ in_title (input x) = Given (title p)
    ∧ in_body (input x) = Given (post_body p)
    ∧ in_tags (input x) = Given (tags p)
    ∧ user p = None.
Proof.
  intros Hwf Hup.
  destruct (write_earlier_valid rt x Hwf Hup) as (p & -> & Hp).
  by exists p.
Qed.

(** X11: the later [write] never stores a post: whatever the request, it
    throws a ReferenceError at its first statement and the answer is 500. *)
Theorem write_uninitialized (rt : Runtime) (x : Exchange) :
  PostsHandlers.write rt x = (Throw (ReferenceError "schema"), x)
  ∧ posts_status (PostsHandlers.write rt x) = 500
  ∧ db (world (PostsHandlers.write rt x).2) = db (world x).
Proof.
  assert (PostsHandlers.write rt x = (Throw (ReferenceError "schema"), x)) as ->.
  { unfold PostsHandlers.write. unfold_posts. unfold read_binding, throw.
    by rewrite with_world_same. }
  done.
Qed.

(** The earlier [read], case by case. *)
Lemma read_earlier_cases (x : Exchange) :
  PostsHandlersEarlier.read x =
    match castObjectId (params_id (ctx (world x))) with
    | None => (Throw (HttpError 500 (CastError (params_id (ctx (world x))))), x)
    | Some oid =>
        if available (db (world x))
        then
          match find (PostsCtrl.has_id oid) (posts (db (world x))) with
          | None => within (set_status 404) x
          | Some p => send (OnePost p) x
          end
        else (Throw (HttpError 500 MongoError), x)
    end.
Proof.
  unfold PostsHandlersEarlier.read, findById. unfold_posts.
  destruct (castObjectId _) as [oid |]; [| by rewrite with_world_same].
  destruct (available _); [| by rewrite with_world_same].
  rewrite with_world_same. by destruct (find _ _).
Qed.

(** X12: a post written by the earlier [write] is read back by the earlier
    [read] under its id: the answer is 200 with the very document the write
    answered with, provided the id is new to the store. *)
Theorem write_then_read (rt : Runtime) (x : Exchange) (id : string) (st : State) :
  well_formed_post (input x) →
  available (db (world x)) = true →
  castObjectId id = Some (new_id rt) →
  (∀ p, p ∈ posts (db (world x)) → post_id p ≠ new_id rt) →
  let written := (PostsHandlersEarlier.write rt x).2 in
  let r := PostsHandlersEarlier.read
             (posts_request (db (world written)) id st no_input no_query) in
  posts_status r = 200
  ∧ sent r.2 = sent written
  ∧ ∃ p, sent r.2 = Some (OnePost p) ∧ post_id p = new_id rt.
Proof.
  intros Hwf Hup Hcast Hfresh written r. subst r written.
  destruct (write_earlier_valid rt x Hwf Hup) as (p & -> & Hid & _).
  rewrite read_earlier_cases. simpl. rewrite Hcast.
  assert (find (PostsCtrl.has_id (new_id rt)) (posts (db (world x)) ++ [p]) = Some p)
    as ->.
  { apply find_last_absent; [| by apply has_id_true].
    destruct (find _ _) as [p' |] eqn:Hfind; [| done].
    apply find_some_elem in Hfind as [Hin Hp']. apply has_id_true in Hp'.
    by destruct (Hfresh p' Hin). }
  split; [done |]. split; [done |]. by exists p.
Qed.

Lemma find_remove_first (oid : ObjectId) (l : list Post) :
  NoDup (post_id <$> l) →
  find (PostsCtrl.has_id oid) (PostsCtrl.remove_first (PostsCtrl.has_id oid) l) = None.
Proof.
  induction l as [| p l IH]; [done |]. simpl.
  intros [Hnotin Hnodup]%NoDup_cons.
  destruct (PostsCtrl.has_id oid p) eqn:Hp; simpl.
  - apply has_id_true in Hp. subst oid.
    destruct (find _ l) as [p' |] eqn:Hfind; [| done].
    apply find_some_elem in Hfind as [Hin Hp']. apply has_id_true in Hp'.
    destruct Hnotin. rewrite <- Hp'. by apply list_elem_of_fmap_2.
  - rewrite Hp. by apply IH.
Qed.

(** X13: once [remove] has answered for an id, in a store where ids are
    unique, the post is gone: the earlier [read] of that id answers 404, so
    does [getPostById] before [read] (400 if the id is not valid), and
    removing again still answers 204. *)
Theorem remove_then_read (x : Exchange) (st : State) :
  NoDup (post_id <$> posts (db (world x))) →
  (PostsCtrl.remove (world x)).1 = Normal tt →
  let removed_from := db (PostsCtrl.remove (world x)).2 in
  let again :=
    posts_request removed_from (params_id (ctx (world x))) st no_input no_query in
  posts_status (PostsHandlersEarlier.read again) = 404
  ∧ posts_status (PostsHandlers.getPostById PostsHandlers.read again)
    = (if ObjectId_isValid (params_id (ctx (world x))) then 404 else 400)
  ∧ posts_status (within PostsCtrl.remove again) = 204.
Proof.
  intros Hnodup Hok removed_from again. subst again removed_from.
  rewrite remove_cases in *.
  destruct (castObjectId (params_id (ctx (world x)))) as [oid |] eqn:Hcast; [| done].
  destruct (available (db (world x))) eqn:Hup; [| done].
  rewrite read_earlier_cases, getPostById_cases. unfold within.
  rewrite remove_cases. simpl. rewrite Hcast.
  rewrite find_remove_first by done.
  split; [done |]. split; [| done].
  by destruct (ObjectId_isValid _).
Qed.

(** [update], case by case; the two controllers have the same. *)
Lemma update_cases (x : Exchange) :
  PostsHandlers.update x =
    match update_schema Joi (input x) with
    | Some error => (within (set_status 400);; send (Rejected error)) x
    | None =>
        match castObjectId (params_id (ctx (world x))) with
        | None => (Throw (HttpError 500 (CastError (params_id (ctx (world x))))), x)
        | Some oid =>
            if available (db (world x))
            then
              let x' :=
                with_world
                  {| db := {| available := true; users := users (db (world x));
                              posts := update_first (PostsCtrl.has_id oid)
                                         (updated (input x)) (posts (db (world x))) |};
                     ctx := ctx (world x) |} x in
              match find (PostsCtrl.has_id oid) (posts (db (world x))) with
              | None => within (set_status 404) x'
              | Some p => send (OnePost (updated (input x) p)) x'
              end
            else (Throw (HttpError 500 MongoError), x)
        end
    end.
Proof.
  unfold PostsHandlers.update, findByIdAndUpdate. unfold_posts.
  destruct (update_schema Joi (input x)); [done |].
  destruct (castObjectId _) as [oid |]; [| by rewrite with_world_same].
  destruct (available _); [| by rewrite with_world_same].
  by destruct (find _ _).
Qed.

Lemma update_first_absent (f : Post → bool) (g : Post → Post) (l : list Post) :
  find f l = None → update_first f g l = l.
Proof.
  induction l as [| p l IH]; [done |]. simpl.
  destruct (f p); [done |]. intros Hnone. by rewrite IH.
Qed.

Lemma update_first_fmap {B} (h : Post → B) (f : Post → bool) (g : Post → Post)
    (l : list Post) :
  (∀ p, h (g p) = h p) → h <$> update_first f g l = h <$> l.
Proof.
  intros Hg. induction l as [| p l IH]; [done |]. csimpl.
  destruct (f p); csimpl; [by rewrite Hg | by rewrite IH].
Qed.

Lemma find_update_first (oid : ObjectId) (i : PostInput) (l : list Post) (p : Post) :
  find (PostsCtrl.has_id oid) l = Some p →
  find (PostsCtrl.has_id oid) (update_first (PostsCtrl.has_id oid) (updated i) l)
  = Some (updated i p).
Proof.
  induction l as [| q l IH]; [done |]. simpl.
  destruct (PostsCtrl.has_id oid q) eqn:Hq; simpl.
  - intros [= ->]. unfold PostsCtrl.has_id in *. simpl. by rewrite Hq.
  - rewrite Hq. apply IH.
Qed.

(** X14: [update], in either controller and however it ends, changes neither
    the id nor the owner of any post, nor their number or order, nor any
    user. *)
Theorem update_keeps_id_and_owner (x : Exchange) :
  (λ p, (post_id p, user p)) <$> posts (db (world (PostsHandlers.update x).2))
    = (λ p, (post_id p, user p)) <$> posts (db (world x))
  ∧ users (db (world (PostsHandlers.update x).2)) = users (db (world x))
  ∧ (λ p, (post_id p, user p)) <$> posts (db (world (PostsHandlersEarlier.update x).2))
    = (λ p, (post_id p, user p)) <$> posts (db (world x)).
Proof.
  change (PostsHandlersEarlier.update x) with (PostsHandlers.update x).
  rewrite update_cases.
  destruct (update_schema Joi (input x)); [done |].
  destruct (castObjectId _) as [oid |]; [| done].
  destruct (available _); [| done].
  assert ((λ p, (post_id p, user p)) <$>
            update_first (PostsCtrl.has_id oid) (updated (input x)) (posts (db (world x)))
          = (λ p, (post_id p, user p)) <$> posts (db (world x))) as Hkept.
  { by apply update_first_fmap. }
  by destruct (find _ _).
Qed.

(** X15: for an id that casts and a reachable database, [update] answers 400
    for a body it does not accept and 404 when no post has the id, leaving
    the store as it was; otherwise it answers 200 with the post in which the
    given fields have replaced the old ones, and that post is then the one
    stored under the id. *)
Theorem update_outcomes (x : Exchange) (oid : ObjectId) :
  status (ctx (world x)) = None →
  castObjectId (params_id (ctx (world x))) = Some oid →
  available (db (world x)) = true →
  let r := PostsHandlers.update x in
  (¬ acceptable_update (input x) →
     posts_status r = 400 ∧ db (world r.2) = db (world x))
  ∧ (acceptable_update (input x) →
     find (PostsCtrl.has_id oid) (posts (db (world x))) = None →
     posts_status r = 404 ∧ db (world r.2) = db (world x))
  ∧ (∀ p, acceptable_update (input x) →
     find (PostsCtrl.has_id oid) (posts (db (world x))) = Some p →
     posts_status r = 200
     ∧ sent r.2 = Some (OnePost (updated (input x) p))
     ∧ find (PostsCtrl.has_id oid) (posts (db (world r.2)))
       = Some (updated (input x) p)
     ∧ length (posts (db (world r.2))) = length (posts (db (world x)))).
Proof.
  intros Hstatus Hcast Hup r. subst r. rewrite update_cases, Hcast, Hup.
  destruct (update_schema Joi (input x)) as [error |] eqn:Hschema.
  { assert (¬ acceptable_update (input x)) as Hbad.
    { rewrite <- update_schema_accepts. congruence. }
    split; [| split; [done | by intros p Hn]].
    intros _. unfold posts_status. unfold_posts. simpl. split; [done |].
    by destruct (db (world x)). }
  apply update_schema_accepts in Hschema.
  split; [done |]. split.
  - intros _ Hnone. rewrite Hnone. simpl.
    rewrite update_first_absent by done.
    split; [done |]. destruct (db (world x)). simpl in Hup. by rewrite Hup.
  - intros p _ Hfound. rewrite Hfound. simpl.
    unfold posts_status. simpl. rewrite Hstatus.
    split; [done |]. split; [done |].
    split; [by apply find_update_first |].
    assert (length ((λ _ : Post, ()) <$> update_first (PostsCtrl.has_id oid)
                      (updated (input x)) (posts (db (world x))))
            = length ((λ _ : Post, ()) <$> posts (db (world x)))) as Hlen.
    { by rewrite (update_first_fmap (λ _, ())). }
    by rewrite !length_fmap in Hlen.
Qed.

(** X16: the later [read] answers with the post left in [ctx.state.post]:
    run on its own, with no post there, it answers 204 without a body; run
    after [getPostById] it answers 200 with the stored post that has the
    requested id, or 404 when there is none, and the store is not
    touched. *)
Theorem read_loaded_post (x : Exchange) :
  status (ctx (world x)) = None →
  (state_post (state (ctx (world x))) = None →
     posts_status (PostsHandlers.read x) = 204 ∧ sent (PostsHandlers.read x).2 = None)
  ∧ (∀ oid p,
       ObjectId_isValid (params_id (ctx (world x))) = true →
       castObjectId (params_id (ctx (world x))) = Some oid →
       available (db (world x)) = true →
       find (PostsCtrl.has_id oid) (posts (db (world x))) = Some p →
       posts_status (PostsHandlers.getPostById PostsHandlers.read x) = 200
       ∧ sent (PostsHandlers.getPostById PostsHandlers.read x).2 = Some (OnePost p)
       ∧ db (world (PostsHandlers.getPostById PostsHandlers.read x).2) = db (world x))
  ∧ (∀ oid,
       ObjectId_isValid (params_id (ctx (world x))) = true →
       castObjectId (params_id (ctx (world x))) = Some oid →
       available (db (world x)) = true →
       find (PostsCtrl.has_id oid) (posts (db (world x))) = None →
       posts_status (PostsHandlers.getPostById PostsHandlers.read x) = 404).
Proof.
  intros Hstatus. split; [| split].
  - intros Hnone. unfold PostsHandlers.read, send_nothing. unfold_posts.
    rewrite Hnone, Hstatus. done.
  - intros oid p Hvalid Hcast Hup Hfind.
    rewrite getPostById_cases, Hvalid, Hcast, Hup, Hfind. simpl.
    unfold PostsHandlers.read, posts_status. unfold_posts. simpl.
    by rewrite Hstatus.
  - intros oid Hvalid Hcast Hup Hfind.
    by rewrite getPostById_cases, Hvalid, Hcast, Hup, Hfind.
Qed.
End Crud.

(** ** Listing posts *)

Section Listing.
Context `{Libs}.
Context `{PostsLibs}.
Import PostModel.

Global Instance newer_total : Total newer.
Proof.
  intros p q. unfold newer.
  destruct (String.leb_total (toHexString (post_id p)) (toHexString (post_id q)));
    [by right | by left].
Qed.

Lemma Sorted_drop {A} (R : relation A) (n : nat) (l : list A) :
  Sorted R l → Sorted R (drop n l).
Proof.
  revert l. induction n as [| n IH]; intros l Hsorted; [done |].
  destruct l as [| x l]; [done |]. simpl.
  apply IH. by apply Sorted_inv in Hsorted as [? _].
Qed.

Lemma Sorted_take {A} (R : relation A) (n : nat) (l : list A) :
  Sorted R l → Sorted R (take n l).
Proof.
  revert l. induction n as [| n IH]; intros l Hsorted; [constructor |].
  destruct l as [| x l]; [constructor |]. simpl.
  apply Sorted_inv in Hsorted as [Hsorted Hhd].
  constructor; [by apply IH |].
  destruct l as [| y l]; [by destruct n; constructor |].
  destruct n; [constructor |]. simpl. constructor.
  by apply HdRel_inv in Hhd.
Qed.

Lemma length_selected (q : Query) (d : Db) :
  length (selected q d) = length (filter (λ p, matches q p = true) (posts d)).
Proof. unfold selected. by rewrite merge_sort_Permutation. Qed.

Lemma elem_of_selected (q : Query) (d : Db) (p : Post) :
  p ∈ selected q d ↔ matches q p = true ∧ p ∈ posts d.
Proof.
  unfold selected. rewrite merge_sort_Permutation. by rewrite list_elem_of_filter.
Qed.

(** The later [list], case by case. *)
Lemma list_cases (x : Exchange) :
  PostsHandlers.list x =
    match asked_page (query x) with
    | Some n =>
        if (n <? 1)%Z
        then within (set_status 400) x
        else if available (db (world x))
        then (Normal tt,
              {| world := world x; input := input x; query := query x;
                 sent := Some (ManyPosts
                                 (take 10 (drop (Z.to_nat ((n - 1) * 10))
                                             (selected (query x) (db (world x))))));
                 last_page := Some (PostsHandlers.pages_of
                                      (length (selected (query x) (db (world x))))) |})
        else (Throw (HttpError 500 MongoError), x)
    | None =>
        if available (db (world x))
        then
          match skip_NaN (selected (query x) (db (world x))) with
          | Normal l =>
              (Normal tt,
               {| world := world x; input := input x; query := query x;
                  sent := Some (ManyPosts l);
                  last_page := Some (PostsHandlers.pages_of
                                       (length (selected (query x) (db (world x))))) |})
          | Throw e => (Throw (HttpError 500 e), x)
          end
        else (Throw (HttpError 500 MongoError), x)
    end.
Proof.
  unfold PostsHandlers.list, asked_page, find_page, countDocuments.
  rewrite length_selected. unfold selected. unfold_posts.
  destruct (parseInt _) as [n |]; simpl.
  - destruct (n <? 1)%Z; [done |].
    destruct (available (db (world x))) eqn:Hup; [| by rewrite with_world_same].
    rewrite !with_world_same. simpl. by rewrite Hup.
  - destruct (available (db (world x))) eqn:Hup; [| by rewrite with_world_same].
    destruct (skip_NaN _); rewrite !with_world_same; simpl; [| done].
    by rewrite Hup.
Qed.

(** X17: the later [list] answers 400 for a page number below 1, and then
    does nothing else: no body, no [Last-Page] header, no query. *)
Theorem list_rejects_page_below_one (x : Exchange) (n : Z) :
  asked_page (query x) = Some n →
  (n < 1)%Z →
  PostsHandlers.list x = within (set_status 400) x
  ∧ posts_status (PostsHandlers.list x) = 400
  ∧ sent (PostsHandlers.list x).2 = sent x
  ∧ last_page (PostsHandlers.list x).2 = last_page x.
Proof.
  intros Hpage Hlow. rewrite list_cases, Hpage.
  destruct (Z.ltb_spec n 1); [| lia]. done.
Qed.

(** X18: for a page number [n] of at least 1 and a reachable database the
    later [list] answers 200 with the [n]-th ten of the selected posts,
    newest first: at most ten posts, in descending order of id, each of them
    a stored post that matches the query; the [Last-Page] header is the
    number of selected posts divided by ten, rounded up; the store is not
    touched. *)
Theorem list_answers_a_page (x : Exchange) (n : Z) :
  asked_page (query x) = Some n →
  (1 ≤ n)%Z →
  available (db (world x)) = true →
  status (ctx (world x)) = None →
  ∃ l,
    PostsHandlers.list x
      = (Normal tt,
         {| world := world x; input := input x; query := query x;
            sent := Some (ManyPosts l);
            last_page := Some ((Z.of_nat (length (selected (query x) (db (world x)))) + 9)
                               / 10)%Z |})
    ∧ posts_status (PostsHandlers.list x) = 200
    ∧ l = take 10 (drop (10 * (Z.to_nat n - 1)) (selected (query x) (db (world x))))
    ∧ length l ≤ 10
    ∧ Sorted newer l
    ∧ (∀ p, p ∈ l → p ∈ posts (db (world x)) ∧ matches (query x) p = true).
Proof.
  intros Hpage Hn Hup Hstatus. rewrite list_cases, Hpage, Hup.
  destruct (Z.ltb_spec n 1); [lia |].
  replace (Z.to_nat ((n - 1) * 10)) with (10 * (Z.to_nat n - 1)) by lia.
  eexists. split; [done |].
  split; [unfold posts_status; simpl; by rewrite Hstatus |].
  split; [done |].
  split; [rewrite length_take; lia |].
  split.
  - apply Sorted_take, Sorted_drop. unfold selected. apply Sorted_merge_sort, _.
  - intros p Hin.
    apply subseteq_take, subseteq_drop, elem_of_selected in Hin as [? ?]. done.
Qed.

(** X19: the [Last-Page] header of the later [list] tells where the posts
    end: the page asked for is empty exactly when its number is beyond
    [Last-Page], and every page before [Last-Page] holds ten posts. *)
Theorem list_last_page (x : Exchange) (n : Z) :
  asked_page (query x) = Some n →
  (1 ≤ n)%Z →
  available (db (world x)) = true →
  ∃ l last,
    sent (PostsHandlers.list x).2 = Some (ManyPosts l)
    ∧ last_page (PostsHandlers.list x).2 = Some last
    ∧ length l = min 10 (length (selected (query x) (db (world x)))
                         - 10 * (Z.to_nat n - 1))
    ∧ (l = [] ↔ (last < n)%Z)
    ∧ ((n < last)%Z → length l = 10).
Proof.
  intros Hpage Hn Hup. rewrite list_cases, Hpage, Hup.
  destruct (Z.ltb_spec n 1); [lia |].
  replace (Z.to_nat ((n - 1) * 10)) with (10 * (Z.to_nat n - 1)) by lia.
  eexists _, _. split; [done |]. split; [done |].
  set (s := selected (query x) (db (world x))).
  assert (length (take 10 (drop (10 * (Z.to_nat n - 1)) s))
          = min 10 (length s - 10 * (Z.to_nat n - 1))) as Hlen.
  { by rewrite length_take, length_drop. }
  split; [done |].
  unfold PostsHandlers.pages_of.
  split.
  - rewrite <- length_zero_iff_nil, Hlen.
    split; intros Hcmp.
    + apply Z.div_lt_upper_bound; lia.
    + assert (Z.of_nat (length s) + 9 < 10 * n)%Z; [| lia].
      destruct (Z.lt_ge_cases (Z.of_nat (length s) + 9) (10 * n)) as [| Hge]; [done |].
      apply (Z.div_le_lower_bound _ 10) in Hge; lia.
  - intros Hcmp. rewrite Hlen.
    assert (10 * (n + 1) ≤ Z.of_nat (length s) + 9)%Z; [| lia].
    destruct (Z.lt_ge_cases (Z.of_nat (length s) + 9) (10 * (n + 1))) as [Hlt | ]; [| done].
    apply (Z.div_lt_upper_bound _ 10) in Hlt; lia.
Qed.

Lemma string_length_append (s t : string) :
  String.length (String.append s t) = String.length s + String.length t.
Proof. induction s as [| a s IH]; simpl; [done | by rewrite IH]. Qed.

Lemma string_length_prefix (n : nat) (s : string) :
  n ≤ String.length s → String.length (String.substring 0 n s) = n.
Proof.
  revert s. induction n as [| n IH]; intros s Hn.
  - by destruct s.
  - destruct s as [| a s]; simpl in *; [lia |]. rewrite IH; lia.
Qed.

Lemma shortened_long_body (p : Post) :
  200 ≤ String.length (post_body p) →
  String.length (post_body (PostsHandlers.shortened p)) = 203.
Proof.
  intros Hlong. unfold PostsHandlers.shortened. simpl.
  destruct (Nat.ltb_spec (String.length (post_body p)) 200); [lia |].
  rewrite string_length_append, string_length_prefix by done. done.
Qed.

Lemma fmap_fixed {A} (f : A → A) (l : list A) (a : A) :
  f <$> l = l → a ∈ l → f a = a.
Proof.
  induction l as [| b l IH]; csimpl; [by intros _ ?%elem_of_nil |].
  intros [= Hb Hl] [-> | Hin]%elem_of_cons; [done | by apply IH].
Qed.

Lemma shortened_body_differs (p : Post) :
  200 ≤ String.length (post_body p) →
  String.length (post_body p) ≠ 203 →
  PostsHandlers.shortened p ≠ p.
Proof.
  intros Hlong Hne Heq.
  pose proof (shortened_long_body p Hlong) as Hshort.
  rewrite Heq in Hshort. done.
Qed.

(** X20: the later [list] answers with the posts as they are stored, not
    with the shortened copies it prepares first: for a page number [n] of at
    least 1 and a reachable database, what is sent is the [n]-th ten of the
    selected posts themselves; when a post of that ten has a body of 200
    characters or more (and not of just 203), this is not the list of
    shortened posts, in which that body would be cut to 200 characters
    followed by three dots.  The second assignment to [ctx.body] replaces
    the first. *)
Theorem list_sends_stored_bodies (x : Exchange) (n : Z) (p : Post) :
  asked_page (query x) = Some n →
  (1 ≤ n)%Z →
  available (db (world x)) = true →
  let page := take 10 (drop (10 * (Z.to_nat n - 1)) (selected (query x) (db (world x)))) in
  p ∈ page →
  200 ≤ String.length (post_body p) →
  String.length (post_body p) ≠ 203 →
  sent (PostsHandlers.list x).2 = Some (ManyPosts page)
  ∧ sent (PostsHandlers.list x).2 ≠ Some (ManyPosts (PostsHandlers.shortened <$> page))
  ∧ post_body (PostsHandlers.shortened p)
    = String.append (String.substring 0 200 (post_body p)) "..."
  ∧ PostsHandlers.shortened p ∈ PostsHandlers.shortened <$> page.
Proof.
  intros Hpage Hn Hup page Hin Hlong Hne.
  assert (sent (PostsHandlers.list x).2 = Some (ManyPosts page)) as Hsent.
  { rewrite list_cases, Hpage, Hup.
    destruct (Z.ltb_spec n 1); [lia |]. simpl.
    by replace (Z.to_nat ((n - 1) * 10)) with (10 * (Z.to_nat n - 1)) by lia. }
  split; [done |]. rewrite Hsent.
  split; [| split].
  - intros [= Heq]. symmetry in Heq.
    apply (fmap_fixed _ _ p) in Heq; [| done].
    by apply shortened_body_differs in Heq.
  - unfold PostsHandlers.shortened. simpl.
    by destruct (Nat.ltb_spec (String.length (post_body p)) 200); [lia |].
  - by apply list_elem_of_fmap_2.
Qed.

(** The earlier [list], case by case. *)
Lemma list_earlier_cases (x : Exchange) :
  PostsHandlersEarlier.list x =
    if available (db (world x))
    then send (ManyPosts (posts (db (world x)))) x
    else (Throw (HttpError 500 MongoError), x).
Proof.
  unfold PostsHandlersEarlier.list, find_all. unfold_posts.
  destruct (available _); by rewrite with_world_same.
Qed.

(** X21: after the earlier [write] has stored a post, the earlier [list]
    answers 200 with all the posts that were there, in their order, followed
    by the new one, and leaves the store as it is. *)
Theorem write_then_list (rt : Runtime) (x : Exchange) (id : string) (st : State)
    (q : Query) :
  well_formed_post (input x) →
  available (db (world x)) = true →
  let written := (PostsHandlersEarlier.write rt x).2 in
  let r := PostsHandlersEarlier.list (posts_request (db (world written)) id st no_input q) in
  ∃ p,
    sent written = Some (OnePost p)
    ∧ posts_status r = 200
    ∧ sent r.2 = Some (ManyPosts (posts (db (world x)) ++ [p]))
    ∧ db (world r.2) = db (world written).
Proof.
  intros Hwf Hup written r. subst r written.
  destruct (write_earlier_valid rt x Hwf Hup) as (p & -> & _).
  rewrite list_earlier_cases. simpl. by exists p.
Qed.
End Listing.

(** * Further examples *)

#[local] Existing Instance Sample.libs.
#[local] Existing Instance SamplePosts.libs.

(** X1, instance: a registration that carries an email besides the username
    and the password. *)
Lemma register_bad_request_iff_witness :
  response_status
    (AuthCtrlEarlier.register (Sample.runtime None "")
       {| db := Sample.empty_db;
          ctx := request {| body_username := Some (JString "alice");
                            body_password := Some (JString "pw123456");
                            body_others := ["email"] |} "" anonymous |}) = 400.
Proof.
  apply (register_bad_request_iff (Sample.runtime None "") Sample.empty_db
           {| body_username := Some (JString "alice");
              body_password := Some (JString "pw123456");
              body_others := ["email"] |} "" anonymous).
  intros (name & password & _ & _ & _ & _ & _ & Hothers). discriminate.
Defined.

(** X3, instance: alice registers, then logs in. *)
Lemma register_then_login_witness :
  response_status
    (AuthCtrl.login (Sample.runtime (Some "secret") "")
       {| db := db (AuthCtrlEarlier.register
                      (Sample.runtime None "64b000000000000000000001")
                      Sample.alice_new).2;
          ctx := request (credentials "alice" "pw123456") "" anonymous |}) = 200.
Proof.
  apply (register_then_login (Sample.runtime None "64b000000000000000000001")
           (Sample.runtime (Some "secret") "") Sample.empty_db "alice" "pw123456"
           "" "" anonymous anonymous "secret"); done.
Defined.

(** X5, instance: the cookie of alice's login. *)
Lemma login_issues_cookie_witness :
  ∃ token,
    UserModel.generateToken (Sample.runtime (Some "secret") "") Sample.alice = Normal token
    ∧ response (AuthCtrl.login (Sample.runtime (Some "secret") "")
                  (Sample.login_as "alice" "pw123456"))
      = (200, Some (JsonBody (UserModel.serialize Sample.alice)),
         [{| cookie_name := "access_token"; cookie_value := Some token;
             maxAge := Some (1000 * (exp (payload token) - iat (payload token)))%Z;
             httpOnly := true |}])
    ∧ jwt_id (payload token) = UserModel.id Sample.alice
    ∧ jwt_username (payload token) = username Sample.alice
    ∧ signature token = hmac_sign "secret" (payload token).
Proof.
  apply (login_issues_cookie (Sample.runtime (Some "secret") "") Sample.alice_db ""
           anonymous "alice" "pw123456" Sample.alice "$2b$10$pw123456" "secret");
    done.
Defined.

(** X6, instance: the username survives serialization. *)
Lemma serialize_keeps_other_fields_witness :
  UserModel.serialize Sample.alice !! "username"
  = UserModel.toJSON Sample.alice !! "username".
Proof.
  apply (proj1 (serialize_keeps_other_fields Sample.alice)). done.
Defined.

(** X7, instance: bob's post is loaded for the handler that follows. *)
Lemma getPostById_loads_requested_post_witness :
  PostsHandlers.getPostById PostsHandlers.read
    (SamplePosts.ask SamplePosts.store "64b0000000000000000000aa" None no_input no_query)
  = PostsHandlers.read
      (with_loaded_post Sample.bob_post
         (SamplePosts.ask SamplePosts.store "64b0000000000000000000aa" None
            no_input no_query)).
Proof.
  destruct (getPostById_loads_requested_post PostsHandlers.read
              (SamplePosts.ask SamplePosts.store "64b0000000000000000000aa" None
                 no_input no_query)) as (_ & _ & Hcast).
  destruct (Hcast {| toHexString := "64b0000000000000000000aa" |})
    as (_ & _ & Hfound); [reflexivity.. |].
  destruct (Hfound Sample.bob_post) as (_ & _ & _ & Hnext); [reflexivity.. |].
  exact Hnext.
Defined.

(** X8, instance: alice deletes her own post. *)
Lemma only_owner_deletes_witness :
  posts_status
    (PostsHandlers.getPostById (within (PostsCtrl.checkOwnPost PostsCtrl.remove))
       (SamplePosts.ask SamplePosts.store "64b0000000000000000000ab"
          (Some Sample.alice_identity) no_input no_query)) = 204.
Proof.
  destruct (only_owner_deletes
              (SamplePosts.ask SamplePosts.store "64b0000000000000000000ab"
                 (Some Sample.alice_identity) no_input no_query))
    as (p & owner & who & _ & _ & _ & _ & _ & _ & Hstatus).
  - vm_compute. discriminate.
  - exact Hstatus.
Defined.

(** X9, instance: a post without a title. *)
Lemma write_bad_request_iff_witness :
  db (world (PostsHandlersEarlier.write (Sample.runtime None "")
               (posts_request SamplePosts.store "" anonymous no_input no_query)).2)
    = SamplePosts.store
  ∧ ∃ error,
      sent (PostsHandlersEarlier.write (Sample.runtime None "")
              (posts_request SamplePosts.store "" anonymous no_input no_query)).2
      = Some (Rejected error).
Proof.
  apply (write_bad_request_iff (Sample.runtime None "") SamplePosts.store ""
           anonymous no_input no_query).
  reflexivity.
Defined.

Lemma draft_well_formed : well_formed_post SamplePosts.draft.
Proof.
  exists "news", "something happened", ["daily"].
  repeat split; try done. by repeat constructor.
Defined.

(** X10, instance: a draft is stored after the three posts. *)
Lemma write_appends_post_witness :
  ∃ p,
    (PostsHandlersEarlier.write (Sample.runtime None "64b0000000000000000000ad")
       (SamplePosts.ask SamplePosts.store "" None SamplePosts.draft no_query)).1 = Normal tt
    ∧ posts (db (world (PostsHandlersEarlier.write
                          (Sample.runtime None "64b0000000000000000000ad")
                          (SamplePosts.ask SamplePosts.store "" None SamplePosts.draft
                             no_query)).2))
      = [Sample.bob_post; Sample.alice_post; SamplePosts.carol_post] ++ [p]
    ∧ users (db (world (PostsHandlersEarlier.write
                          (Sample.runtime None "64b0000000000000000000ad")
                          (SamplePosts.ask SamplePosts.store "" None SamplePosts.draft
                             no_query)).2))
      = [Sample.alice]
    ∧ sent (PostsHandlersEarlier.write (Sample.runtime None "64b0000000000000000000ad")
              (SamplePosts.ask SamplePosts.store "" None SamplePosts.draft no_query)).2
      = Some (OnePost p)
    ∧ post_id p = {| toHexString := "64b0000000000000000000ad" |}
    ∧ Given "news" = Given (title p)
    ∧ Given "something happened" = Given (post_body p)
    ∧ Given ["daily"] = Given (tags p)
    ∧ user p = None.
Proof.
  apply (write_appends_post (Sample.runtime None "64b0000000000000000000ad")
           (SamplePosts.ask SamplePosts.store "" None SamplePosts.draft no_query)).
  - exact draft_well_formed.
  - reflexivity.
Defined.

(** X12, instance: the draft is read back under its id. *)
Lemma write_then_read_witness :
  posts_status
    (PostsHandlersEarlier.read
       (posts_request
          (db (world (PostsHandlersEarlier.write
                        (Sample.runtime None "64b0000000000000000000ad")
                        (SamplePosts.ask SamplePosts.store "" None SamplePosts.draft
                           no_query)).2))
          "64b0000000000000000000ad" anonymous no_input no_query)) = 200.
Proof.
  apply (write_then_read (Sample.runtime None "64b0000000000000000000ad")
           (SamplePosts.ask SamplePosts.store "" None SamplePosts.draft no_query)
           "64b0000000000000000000ad" anonymous).
  - exact draft_well_formed.
  - reflexivity.
  - reflexivity.
  - intros p Hin Hid. vm_compute in Hin.
    repeat (apply elem_of_cons in Hin as [-> | Hin]; [discriminate Hid |]).
    by apply elem_of_nil in Hin.
Defined.

(** X13, instance: bob's post is removed, then asked for. *)
Lemma remove_then_read_witness :
  posts_status
    (PostsHandlersEarlier.read
       (posts_request
          (db (PostsCtrl.remove
                 (world (SamplePosts.ask SamplePosts.store "64b0000000000000000000aa"
                           None no_input no_query))).2)
          "64b0000000000000000000aa" anonymous no_input no_query)) = 404.
Proof.
  apply (remove_then_read
           (SamplePosts.ask SamplePosts.store "64b0000000000000000000aa" None
              no_input no_query) anonymous).
  - apply (bool_decide_unpack _). vm_compute. reflexivity.
  - reflexivity.
Defined.

(** X15, instance: alice's post gets a new title and keeps its body. *)
Lemma update_outcomes_witness :
  posts_status
    (PostsHandlers.update
       (SamplePosts.ask SamplePosts.store "64b0000000000000000000ab" None
          SamplePosts.retitle no_query)) = 200
  ∧ sent (PostsHandlers.update
            (SamplePosts.ask SamplePosts.store "64b0000000000000000000ab" None
               SamplePosts.retitle no_query)).2
    = Some (OnePost {| post_id := post_id Sample.alice_post; title := "hello again";
                       post_body := "there"; tags := [];
                       user := user Sample.alice_post |}).
Proof.
  destruct (update_outcomes
              (SamplePosts.ask SamplePosts.store "64b0000000000000000000ab" None
                 SamplePosts.retitle no_query)
              {| toHexString := "64b0000000000000000000ab" |})
    as (_ & _ & Hfound); [reflexivity.. |].
  destruct (Hfound Sample.alice_post) as (Hstatus & Hsent & _).
  - repeat split; try (by left). right. by exists "hello again".
  - reflexivity.
  - split; [exact Hstatus | exact Hsent].
Defined.

(** X16, instance: bob's post, loaded and read. *)
Lemma read_loaded_post_witness :
  posts_status
    (PostsHandlers.getPostById PostsHandlers.read
       (SamplePosts.ask SamplePosts.store "64b0000000000000000000aa" None
          no_input no_query)) = 200
  ∧ sent (PostsHandlers.getPostById PostsHandlers.read
            (SamplePosts.ask SamplePosts.store "64b0000000000000000000aa" None
               no_input no_query)).2
    = Some (OnePost Sample.bob_post).
Proof.
  destruct (read_loaded_post
              (SamplePosts.ask SamplePosts.store "64b0000000000000000000aa" None
                 no_input no_query)) as (_ & Hfound & _); [reflexivity |].
  destruct (Hfound {| toHexString := "64b0000000000000000000aa" |} Sample.bob_post)
    as (Hstatus & Hsent & _); [reflexivity.. |].
  split; [exact Hstatus | exact Hsent].
Defined.

(** X17, instance: page 0. *)
Lemma list_rejects_page_below_one_witness :
  posts_status
    (PostsHandlers.list
       (SamplePosts.ask SamplePosts.store "" None no_input (SamplePosts.page "0"))) = 400.
Proof.
  apply (list_rejects_page_below_one
           (SamplePosts.ask SamplePosts.store "" None no_input (SamplePosts.page "0")) 0);
    reflexivity.
Defined.

(** X18, instance: the first page of the three posts, newest first. *)
Lemma list_answers_a_page_witness :
  ∃ l,
    sent (PostsHandlers.list
            (SamplePosts.ask SamplePosts.store "" None no_input (SamplePosts.page "1"))).2
      = Some (ManyPosts l)
    ∧ l = [SamplePosts.carol_post; Sample.alice_post; Sample.bob_post]
    ∧ Sorted PostModel.newer l.
Proof.
  destruct (list_answers_a_page
              (SamplePosts.ask SamplePosts.store "" None no_input (SamplePosts.page "1"))
              1) as (l & Hrun & _ & Hl & _ & Hsorted & _).
  - reflexivity.
  - lia.
  - reflexivity.
  - reflexivity.
  - exists l. rewrite Hrun. split; [reflexivity |]. split; [| exact Hsorted].
    rewrite Hl. vm_compute. reflexivity.
Defined.

(** X19, instance: the second page of the three posts is empty. *)
Lemma list_last_page_witness :
  ∃ l last,
    sent (PostsHandlers.list
            (SamplePosts.ask SamplePosts.store "" None no_input (SamplePosts.page "2"))).2
      = Some (ManyPosts l)
    ∧ last_page (PostsHandlers.list
                   (SamplePosts.ask SamplePosts.store "" None no_input
                      (SamplePosts.page "2"))).2
      = Some last
    ∧ (l = [] ↔ (last < 2)%Z).
Proof.
  destruct (list_last_page
              (SamplePosts.ask SamplePosts.store "" None no_input (SamplePosts.page "2"))
              2) as (l & last & Hsent & Hlast & _ & Hempty & _).
  - reflexivity.
  - lia.
  - reflexivity.
  - exists l, last. split; [exact Hsent |]. split; [exact Hlast | exact Hempty].
Defined.

(** X20, instance: carol's post of 300 characters is sent whole. *)
Lemma list_sends_stored_bodies_witness :
  sent (PostsHandlers.list
          (SamplePosts.ask SamplePosts.store "" None no_input (SamplePosts.page "1"))).2
    = Some (ManyPosts [SamplePosts.carol_post; Sample.alice_post; Sample.bob_post])
  ∧ sent (PostsHandlers.list
            (SamplePosts.ask SamplePosts.store "" None no_input (SamplePosts.page "1"))).2
    ≠ Some (ManyPosts (PostsHandlers.shortened <$>
                         [SamplePosts.carol_post; Sample.alice_post; Sample.bob_post])).
Proof.
  destruct (list_sends_stored_bodies
              (SamplePosts.ask SamplePosts.store "" None no_input (SamplePosts.page "1"))
              1 SamplePosts.carol_post) as (Hsent & Hfull & _).
  - reflexivity.
  - lia.
  - reflexivity.
  - vm_compute. by left.
  - vm_compute. lia.
  - vm_compute. lia.
  - split; [exact Hsent | exact Hfull].
Defined.

(** X21, instance: the draft comes last in the list. *)
Lemma write_then_list_witness :
  ∃ p,
    sent (PostsHandlersEarlier.write (Sample.runtime None "64b0000000000000000000ad")
            (SamplePosts.ask SamplePosts.store "" None SamplePosts.draft no_query)).2
      = Some (OnePost p)
    ∧ posts_status
        (PostsHandlersEarlier.list
           (posts_request
              (db (world (PostsHandlersEarlier.write
                            (Sample.runtime None "64b0000000000000000000ad")
                            (SamplePosts.ask SamplePosts.store "" None SamplePosts.draft
                               no_query)).2))
              "" anonymous no_input no_query)) = 200
    ∧ sent (PostsHandlersEarlier.list
              (posts_request
                 (db (world (PostsHandlersEarlier.write
                               (Sample.runtime None "64b0000000000000000000ad")
                               (SamplePosts.ask SamplePosts.store "" None SamplePosts.draft
                                  no_query)).2))
                 "" anonymous no_input no_query)).2
      = Some (ManyPosts ([Sample.bob_post; Sample.alice_post; SamplePosts.carol_post] ++ [p])).
Proof.
  destruct (write_then_list (Sample.runtime None "64b0000000000000000000ad")
              (SamplePosts.ask SamplePosts.store "" None SamplePosts.draft no_query)
              "" anonymous no_query draft_well_formed)
    as (p & Hsent & Hstatus & Hlist & _); [reflexivity |].
  exists p. split; [exact Hsent |]. split; [exact Hstatus | exact Hlist].
Defined.
